(** * Market data API: period chunking, session filter, validation, aggregation

    A shallow embedding of [schwab_market_data_client.py] and
    [market_data_aggregator.py].

    Conventions.
    - Python integers are [Z].  Prices are held as [Z] in the smallest
      price unit: the code only compares prices ([< 0], [max], [min]) and
      never does arithmetic on them.  Volumes are [Z]; the bound of the
      64-bit column type that pandas uses for them is not modelled.
    - A JSON/pandas cell that may be null is an [option]; [None] is the
      null (None / NaN) cell.
    - [logger] calls are kept as an explicit list of log records returned
      next to the result.
    - The HTTP capability and the credential provider are state-passing
      functions over an abstract world.
    - Instants that Python's [datetime] cannot represent (years outside
      1..9999) make the source raise and are outside this model. *)

From Stdlib Require Import ZArith List String Ascii Bool Lia.
From Stdlib Require Import Permutation Sorted.
From Equations Require Import Equations.
Import ListNotations.
Local Open Scope Z_scope.

(* ===================================================================== *)
(** * Definitions *)
(* ===================================================================== *)

(** ** PeriodOptimizer *)

Module PeriodOptimizer.

Definition VALID_PERIODS : list Z := [10; 5; 4; 3; 2; 1].

(** The [for period in ...: if days_remaining >= period: return period]
    loop over an arbitrary ladder; falling off the end is [return 0]. *)
Fixpoint first_fitting (periods : list Z) (days_remaining : Z) : Z :=
  match periods with
  | [] => 0
  | period :: rest =>
      if days_remaining >=? period then period
      else first_fitting rest days_remaining
  end.

Definition get_optimal_period (days_remaining : Z) : Z :=
  first_fitting VALID_PERIODS days_remaining.

End PeriodOptimizer.

(** ** The parts of Python's [datetime] and [calendar] the code relies on *)

Module Civil.

(** Proleptic Gregorian calendar, as [datetime] uses it. *)
Definition isleap (year : Z) : bool :=
  (year mod 4 =? 0) && (negb (year mod 100 =? 0) || (year mod 400 =? 0)).

(** [calendar.monthrange(year, month)[1]]: the length of the month. *)
Definition days_in_month (year month : Z) : Z :=
  if month =? 2 then (if isleap year then 29 else 28)
  else if (month =? 4) || (month =? 6) || (month =? 9) || (month =? 11)
       then 30 else 31.

(** Days since 1970-01-01 of a civil date. *)
Definition days_from_civil (y m d : Z) : Z :=
  let y' := if m <=? 2 then y - 1 else y in
  let era := y' / 400 in
  let yoe := y' - era * 400 in
  let mp := (m + 9) mod 12 in
  let doy := (153 * mp + 2) / 5 + d - 1 in
  let doe := yoe * 365 + yoe / 4 - yoe / 100 + doy in
  era * 146097 + doe - 719468.

(** The civil date of a day count since 1970-01-01. *)
Definition civil_from_days (z : Z) : Z * Z * Z :=
  let z := z + 719468 in
  let era := z / 146097 in
  let doe := z - era * 146097 in
  let yoe := (doe - doe / 1460 + doe / 36524 - doe / 146096) / 365 in
  let y := yoe + era * 400 in
  let doy := doe - (365 * yoe + yoe / 4 - yoe / 100) in
  let mp := (5 * doy + 2) / 153 in
  let d := doy - (153 * mp + 2) / 5 + 1 in
  let m := if mp <? 10 then mp + 3 else mp - 9 in
  (if m <=? 2 then y + 1 else y, m, d).

(** [datetime(y, m, d).weekday()]: Monday is 0, Sunday is 6.
    1970-01-01 was a Thursday. *)
Definition weekday (y m d : Z) : Z := (days_from_civil y m d + 3) mod 7.

(** [datetime.time]: compared field by field, most significant first. *)
Record time := mk_time { hour : Z; minute : Z; second : Z; microsecond : Z }.

Definition time_compare (a b : time) : comparison :=
  match hour a ?= hour b with
  | Eq => match minute a ?= minute b with
          | Eq => match second a ?= second b with
                  | Eq => microsecond a ?= microsecond b
                  | c => c
                  end
          | c => c
          end
  | c => c
  end.

Definition time_ltb (a b : time) : bool :=
  match time_compare a b with Lt => true | _ => false end.
Definition time_gtb (a b : time) : bool :=
  match time_compare a b with Gt => true | _ => false end.
Definition time_leb (a b : time) : bool := negb (time_gtb a b).
Definition time_eqb (a b : time) : bool :=
  match time_compare a b with Eq => true | _ => false end.

(** A timezone-aware [datetime] in its own zone. *)
Record datetime := mk_datetime {
  year : Z; month : Z; day : Z;
  time_of : time;               (* [dt.time()] *)
  zone_name : string            (* [dt.tzname()], what [%Z] prints *)
}.

(** A [pytz] zone: UTC offset in seconds and abbreviation in force at a
    UTC instant (seconds since the epoch). *)
Record tzinfo := mk_tz { utcoffset : Z -> Z; tzname : Z -> string }.

(** [datetime.fromtimestamp(timestamp_ms / 1000, tz=pytz.UTC)
      .astimezone(tz)] for an integer millisecond timestamp. *)
Definition fromtimestamp_ms (tz : tzinfo) (timestamp_ms : Z) : datetime :=
  let utc_s := timestamp_ms / 1000 in
  let us := (timestamp_ms mod 1000) * 1000 in
  let local_s := utc_s + utcoffset tz utc_s in
  let '(y, m, d) := civil_from_days (local_s / 86400) in
  let sod := local_s mod 86400 in
  {| year := y; month := m; day := d;
     time_of := {| hour := sod / 3600; minute := (sod mod 3600) / 60;
                   second := sod mod 60; microsecond := us |};
     zone_name := tzname tz utc_s |}.

(** [America/New_York] under the United States rules in force since
    2007: daylight time from the second Sunday of March, 02:00 EST, to
    the first Sunday of November, 02:00 EDT.  The concrete evaluations
    below use instants after 2007 only. *)
Definition nth_sunday_from (y m first_day : Z) : Z :=
  first_day + (6 - weekday y m first_day) mod 7.

Definition ny_is_dst (utc_s : Z) : bool :=
  let '(y, _, _) := civil_from_days (utc_s / 86400) in
  let dst_start := days_from_civil y 3 (nth_sunday_from y 3 8) * 86400 + 7 * 3600 in
  let dst_end := days_from_civil y 11 (nth_sunday_from y 11 1) * 86400 + 6 * 3600 in
  (dst_start <=? utc_s) && (utc_s <? dst_end).

Definition America_New_York : tzinfo :=
  {| utcoffset := fun s => if ny_is_dst s then -4 * 3600 else -5 * 3600;
     tzname := fun s => (if ny_is_dst s then "EDT" else "EST")%string |}.

(** [strftime] digits. *)
Definition digit (n : Z) : ascii := ascii_of_nat (48 + Z.to_nat (n mod 10)).

Definition pad2 (n : Z) : string :=
  String (digit (n / 10)) (String (digit n) EmptyString).

Definition pad4 (n : Z) : string :=
  String (digit (n / 1000)) (String (digit (n / 100)) (pad2 n)).

(** [dt.strftime('%Y-%m-%d %H:%M:%S %Z')], years 1000..9999. *)
Definition strftime (dt : datetime) : string :=
  (pad4 (year dt) ++ "-" ++ pad2 (month dt) ++ "-" ++ pad2 (day dt) ++ " "
   ++ pad2 (hour (time_of dt)) ++ ":" ++ pad2 (minute (time_of dt)) ++ ":"
   ++ pad2 (second (time_of dt)) ++ " " ++ zone_name dt)%string.

End Civil.

(** ** Tabular data *)

Module Frame.

(** A cell that may be null. *)
Definition cell := option Z.

(** A raw candle of the provider: a JSON object.  A field is [None]
    when the key is absent, [Some None] when it is present and null. *)
Record Candle := mk_candle {
  c_datetime : option Z;
  c_open : option cell; c_high : option cell; c_low : option cell;
  c_close : option cell; c_volume : option cell
}.

(** [dict.get(key, default)]. *)
Definition get {A : Type} (field : option A) (default : A) : A :=
  match field with Some v => v | None => default end.

(** A row of the processed frame. *)
Record Row := mk_row {
  timestamp : Z; datetime : string;
  open : cell; high : cell; low : cell; close : cell; volume : cell
}.

(** [df.sort_values('timestamp')] uses pandas' default sort kind, which
    is not stable; all the code relies on is that the result is a
    rearrangement of the rows in ascending timestamp order. *)
Record sorts_by_timestamp (sort_values : list Row -> list Row) : Prop := {
  sort_perm : forall df, Permutation df (sort_values df);
  sort_sorted : forall df,
    Sorted (fun a b => timestamp a <= timestamp b) (sort_values df)
}.

(** One sort that qualifies: straight insertion. *)
Fixpoint insert_row (r : Row) (df : list Row) : list Row :=
  match df with
  | [] => [r]
  | r' :: rest =>
      if timestamp r <=? timestamp r' then r :: df
      else r' :: insert_row r rest
  end.

Fixpoint insertion_sort (df : list Row) : list Row :=
  match df with
  | [] => []
  | r :: rest => insert_row r (insertion_sort rest)
  end.

(** [df.drop_duplicates(subset=['timestamp'])], [keep='first']: a row
    stays unless an earlier row has its timestamp. *)
Fixpoint drop_duplicates_from (seen : list Z) (df : list Row) : list Row :=
  match df with
  | [] => []
  | r :: rest =>
      if existsb (Z.eqb (timestamp r)) seen
      then drop_duplicates_from seen rest
      else r :: drop_duplicates_from (timestamp r :: seen) rest
  end.

Definition drop_duplicates (df : list Row) : list Row :=
  drop_duplicates_from [] df.

End Frame.

(** ** MarketDataProcessor *)

Module MarketDataProcessor.
Import Frame.

(** The processor after [__init__]: the zone and the three times of
    [MarketConfig], parsed. *)
Record t := mk {
  timezone : Civil.tzinfo;
  market_open : Civil.time;
  market_close : Civil.time;
  early_close : Civil.time
}.

(** [MarketDataProcessor(MarketConfig())]. *)
Definition default : t :=
  {| timezone := Civil.America_New_York;
     market_open := Civil.mk_time 9 30 0 0;
     market_close := Civil.mk_time 16 0 0 0;
     early_close := Civil.mk_time 13 0 0 0 |}.

(** [range(1, n + 1)]. *)
Definition range1 (n : Z) : list Z := map Z.of_nat (seq 1 (Z.to_nat n)).

Definition fridays_of (year month : Z) : list Z :=
  filter (fun day => Civil.weekday year month day =? 4)
         (range1 (Civil.days_in_month year month)).

Definition _is_fourth_friday (date : Civil.datetime) : bool :=
  let fridays := fridays_of (Civil.year date) (Civil.month date) in
  (4 <=? Z.of_nat (List.length fridays))
  && match nth_error fridays 3 with
     | Some f => Civil.day date =? f
     | None => false
     end.

Definition _process_single_candle (self : t) (candle : Candle) : option Row :=
  let timestamp_ms := get (c_datetime candle) 0 in
  let dt_et := Civil.fromtimestamp_ms (timezone self) timestamp_ms in
  let candle_time := Civil.time_of dt_et in
  if Civil.time_ltb candle_time (market_open self)
     || Civil.time_gtb candle_time (market_close self)
  then None
  else if (Civil.month dt_et =? 7) && (Civil.day dt_et =? 3)
          && Civil.time_gtb candle_time (early_close self)
  then None
  else if (Civil.month dt_et =? 11) && _is_fourth_friday dt_et
          && Civil.time_gtb candle_time (early_close self)
  then None
  else if (Civil.month dt_et =? 12) && (Civil.day dt_et =? 24)
          && Civil.time_gtb candle_time (early_close self)
  then None
  else Some {| timestamp := timestamp_ms;
               datetime := Civil.strftime dt_et;
               open := get (c_open candle) (Some 0);
               high := get (c_high candle) (Some 0);
               low := get (c_low candle) (Some 0);
               close := get (c_close candle) (Some 0);
               volume := get (c_volume candle) (Some 0) |}.

(** The [for candle in candles] loop filling [df_data]. *)
Fixpoint collect (self : t) (candles : list Candle) : list Row :=
  match candles with
  | [] => []
  | candle :: rest =>
      match _process_single_candle self candle with
      | Some processed_candle => processed_candle :: collect self rest
      | None => collect self rest
      end
  end.

(** The empty frame [pd.DataFrame()] is the empty list of rows. *)
Definition process_candles (sort_values : list Row -> list Row)
           (self : t) (candles : list Candle) : list Row :=
  match collect self candles with
  | [] => []
  | df_data => drop_duplicates (sort_values df_data)
  end.

(** The local dates with an early close: July 3rd, the fourth Friday of
    November, December 24th. *)
Definition early_close_day (dt : Civil.datetime) : bool :=
  ((Civil.month dt =? 7) && (Civil.day dt =? 3))
  || ((Civil.month dt =? 11) && _is_fourth_friday dt)
  || ((Civil.month dt =? 12) && (Civil.day dt =? 24)).

(** The regular-session rule in the words of the specification: open
    09:30:00 inclusive, close 16:00:00 exclusive, and on an early-close
    day nothing after 13:00:00. *)
Definition is_regular_session_spec (dt : Civil.datetime) : bool :=
  let t := Civil.time_of dt in
  Civil.time_leb (Civil.mk_time 9 30 0 0) t
  && Civil.time_ltb t (Civil.mk_time 16 0 0 0)
  && (if early_close_day dt then Civil.time_leb t (Civil.mk_time 13 0 0 0)
      else true).

(** Whether a candle survives the filter. *)
Definition accepted (self : t) (candle : Candle) : bool :=
  match _process_single_candle self candle with
  | Some _ => true
  | None => false
  end.

(** Reading a processed row back as a raw candle: the row's epoch
    timestamp is the candle's [datetime] field, the five values are
    carried over.  This is how a cleaned series is fed to the cleaner
    again. *)
Definition as_candle (r : Row) : Candle :=
  {| c_datetime := Some (timestamp r);
     c_open := Some (open r); c_high := Some (high r);
     c_low := Some (low r); c_close := Some (close r);
     c_volume := Some (volume r) |}.

End MarketDataProcessor.

(** ** DataQualityValidator *)

Module DataQualityValidator.
Import Frame.

Inductive level := INFO | WARNING | ERROR.

(** The six checks, named in the order of the [validations] list. *)
Inductive check :=
| DuplicateTimestamps | DuplicateDatetime | NullValues
| NegativePrices | VolumeValues | TimestampOrdering.

(** What the logger calls of the validator print. *)
Inductive message :=
| CannotValidate                      (* DataFrame is None or empty *)
| Running                             (* Running comprehensive ... *)
| AllPassed                           (* All data quality validations passed *)
| Found (c : check) (n : nat)         (* Found n ... records *)
| Sample (c : check) (head : list (Z * string))
| NullsFound                          (* Found null values in dataframe *)
| NullCounts (counts : list (string * nat))
| NotAscending                        (* Timestamps are not in ascending order *)
| Fine (c : check).                   (* the check's closing info line *)

Definition log := list (level * message).

(** The check a log record comes from, if any. *)
Definition origin (m : message) : option check :=
  match m with
  | Found c _ | Sample c _ | Fine c => Some c
  | NullsFound | NullCounts _ => Some NullValues
  | NotAscending => Some TimestampOrdering
  | CannotValidate | Running | AllPassed => None
  end.

Definition check_eqb (a b : check) : bool :=
  match a, b with
  | DuplicateTimestamps, DuplicateTimestamps
  | DuplicateDatetime, DuplicateDatetime
  | NullValues, NullValues
  | NegativePrices, NegativePrices
  | VolumeValues, VolumeValues
  | TimestampOrdering, TimestampOrdering => true
  | _, _ => false
  end.

(** [df[df.duplicated(subset=[col], keep=False)]]: the rows whose key
    occurs in more than one row. *)
Definition duplicated {K : Type} (eqb : K -> K -> bool) (key : Row -> K)
           (df : list Row) : list Row :=
  filter (fun r =>
            (2 <=? List.length (filter (fun r' => eqb (key r') (key r)) df))%nat)
         df.

(** [frame[['timestamp', 'datetime']].head()]. *)
Definition head (df : list Row) : list (Z * string) :=
  map (fun r => (timestamp r, datetime r)) (firstn 5 df).

Definition is_empty {A : Type} (l : list A) : bool :=
  match l with [] => true | _ => false end.

Definition _check_duplicate_timestamps (df : list Row) : bool * log :=
  let duplicate_timestamps := duplicated Z.eqb timestamp df in
  if negb (is_empty duplicate_timestamps)
  then (false, [(ERROR, Found DuplicateTimestamps (List.length duplicate_timestamps));
                (ERROR, Sample DuplicateTimestamps (head duplicate_timestamps))])
  else (true, [(INFO, Fine DuplicateTimestamps)]).

Definition _check_duplicate_datetime (df : list Row) : bool * log :=
  let duplicate_datetime := duplicated String.eqb datetime df in
  if negb (is_empty duplicate_datetime)
  then (false, [(ERROR, Found DuplicateDatetime (List.length duplicate_datetime));
                (ERROR, Sample DuplicateDatetime (head duplicate_datetime))])
  else (true, [(INFO, Fine DuplicateDatetime)]).

Definition isnull (c : cell) : bool :=
  match c with None => true | Some _ => false end.

Definition count_null (col : Row -> cell) (df : list Row) : nat :=
  List.length (filter (fun r => isnull (col r)) df).

(** [df[critical_columns].isnull().sum()].  The timestamp and datetime
    columns hold no null in a frame of [Row]s. *)
Definition null_counts (df : list Row) : list (string * nat) :=
  [("timestamp"%string, 0%nat); ("datetime"%string, 0%nat);
   ("open"%string, count_null open df); ("high"%string, count_null high df);
   ("low"%string, count_null low df); ("close"%string, count_null close df);
   ("volume"%string, count_null volume df)].

Definition _check_null_values (df : list Row) : bool * log :=
  let counts := null_counts df in
  if (0 <? list_sum (map snd counts))%nat
  then (true, [(WARNING, NullsFound);
               (WARNING, NullCounts (filter (fun c => (0 <? snd c)%nat) counts))])
  else (true, [(INFO, Fine NullValues)]).

(** A comparison with a null cell is false. *)
Definition lt0 (c : cell) : bool :=
  match c with Some z => z <? 0 | None => false end.
Definition le0 (c : cell) : bool :=
  match c with Some z => z <=? 0 | None => false end.

Definition _check_negative_prices (df : list Row) : bool * log :=
  let negative_prices :=
    filter (fun r => lt0 (open r) || lt0 (high r) || lt0 (low r) || lt0 (close r)) df in
  if negb (is_empty negative_prices)
  then (false, [(ERROR, Found NegativePrices (List.length negative_prices))])
  else (true, [(INFO, Fine NegativePrices)]).

Definition _check_volume_values (df : list Row) : bool * log :=
  let zero_volume := filter (fun r => le0 (volume r)) df in
  if negb (is_empty zero_volume)
  then (true, [(WARNING, Found VolumeValues (List.length zero_volume))])
  else (true, [(INFO, Fine VolumeValues)]).

(** [Series.is_monotonic_increasing]: no value is smaller than the one
    before it. *)
Fixpoint is_monotonic_increasing (l : list Z) : bool :=
  match l with
  | [] => true
  | x :: rest =>
      match rest with
      | [] => true
      | y :: _ => (x <=? y) && is_monotonic_increasing rest
      end
  end.

Definition _check_timestamp_ordering (df : list Row) : bool * log :=
  if negb (is_monotonic_increasing (map timestamp df))
  then (false, [(ERROR, NotAscending)])
  else (true, [(INFO, Fine TimestampOrdering)]).

Definition validations : list (check * (list Row -> bool * log)) :=
  [(DuplicateTimestamps, _check_duplicate_timestamps);
   (DuplicateDatetime, _check_duplicate_datetime);
   (NullValues, _check_null_values);
   (NegativePrices, _check_negative_prices);
   (VolumeValues, _check_volume_values);
   (TimestampOrdering, _check_timestamp_ordering)].

(** [for validation in validations: if not validation(df): return False],
    with the log the validations that ran have written. *)
Fixpoint run (vs : list (check * (list Row -> bool * log))) (df : list Row)
  : bool * log :=
  match vs with
  | [] => (true, [])
  | (_, validation) :: rest =>
      let (ok, l) := validation df in
      if negb ok then (false, l)
      else let (res, l') := run rest df in (res, l ++ l')
  end.

(** [df] is [None] for Python's [None]. *)
Definition validate_dataframe (df : option (list Row)) : bool * log :=
  match df with
  | None => (false, [(ERROR, CannotValidate)])
  | Some rows =>
      if is_empty rows then (false, [(ERROR, CannotValidate)])
      else
        let (ok, l) := run validations rows in
        if ok then (true, (INFO, Running) :: l ++ [(INFO, AllPassed)])
        else (false, (INFO, Running) :: l)
  end.

(** No price of the row is negative; a null price is not negative. *)
Definition no_negative_price (r : Row) : Prop :=
  forall z, In (Some z) [open r; high r; low r; close r] -> 0 <= z.

(** Whether the log holds a record written by check [c]: every check
    writes at least one record when it runs. *)
Definition evaluated (c : check) (l : log) : bool :=
  existsb (fun e => match origin (snd e) with
                    | Some c' => check_eqb c c'
                    | None => false
                    end) l.

(** Whether the log holds an error record written by check [c]. *)
Definition reports_failure (c : check) (l : log) : bool :=
  existsb (fun e => match fst e, origin (snd e) with
                    | ERROR, Some c' => check_eqb c c'
                    | _, _ => false
                    end) l.

(** A check fires on a frame when, run on its own, it returns [False]. *)
Definition fires (c : check) (df : list Row) : bool :=
  existsb (fun v => check_eqb c (fst v) && negb (fst (snd v df))) validations.

(** The place of a check in the [validations] list. *)
Definition rank (c : check) : nat :=
  match c with
  | DuplicateTimestamps => 0 | DuplicateDatetime => 1 | NullValues => 2
  | NegativePrices => 3 | VolumeValues => 4 | TimestampOrdering => 5
  end.

(** Whether a check placed before [c] fires. *)
Definition earlier_fires (c : check) (df : list Row) : bool :=
  existsb (fun v => (rank (fst v) <? rank c)%nat && negb (fst (snd v df)))
          validations.

(** C2, as the specification words it: on a non-empty frame every check
    that fires is reflected in the outcome. *)
Definition reflects_every_firing_check (rows : list Row) : Prop :=
  forall c, fires c rows = true ->
            reports_failure c (snd (validate_dataframe (Some rows))) = true.

End DataQualityValidator.

(** ** SchwabMarketDataClient *)

Module SchwabMarketDataClient.
Import Frame.

(** Timezone-aware datetimes are compared, subtracted and shifted as
    instants: microseconds since the epoch. *)
Definition DAY : Z := 86400000000.

(** [timedelta(days=n)]. *)
Definition timedelta (days : Z) : Z := days * DAY.

(** [delta.days]: whole days, rounded down. *)
Definition days (delta : Z) : Z := delta / DAY.

(** [int(dt.timestamp() * 1000)]. *)
Definition to_ms (dt : Z) : Z := Z.quot dt 1000.

(** The query parameters, header and target of one GET. *)
Record Request := mk_request {
  q_url : string; q_authorization : string; q_timeout : Z;
  q_symbol : string; q_periodType : string; q_period : Z;
  q_frequencyType : string; q_frequency : Z;
  q_startDate : Z; q_endDate : Z;
  q_needExtendedHoursData : string; q_needPreviousClose : string
}.

(** The body of a response: [NotJson] when [response.json()] raises,
    otherwise the value under the key [candles], if the key is there. *)
Inductive Body := NotJson | Json (candles : option (list Candle)).

(** What [requests.get] does: raise, or answer with a status code. *)
Inductive Response := RequestException | Status (status_code : Z) (body : Body).

(** A chunk request fails on a transport error or a status other
    than 200. *)
Definition failed (r : Response) : bool :=
  match r with
  | RequestException => true
  | Status status_code _ => negb (status_code =? 200)
  end.

Record APIConfig := mk_api { server : string; api_timeout : Z }.

Definition default_api : APIConfig :=
  {| server := "https://api.schwabapi.com/marketdata/v1"; api_timeout := 30 |}.

(** [if period_end_dt > end_dt: period_end_dt = end_dt]. *)
Definition clamp (period_end_dt end_dt : Z) : Z :=
  if period_end_dt >? end_dt then end_dt else period_end_dt.

Definition days_remaining (current_start_dt end_dt : Z) : Z :=
  days (end_dt - current_start_dt) + 1.

(** The value of [current_start_dt] after one turn of the loop. *)
Definition next_start (current_start_dt end_dt period : Z) : Z :=
  clamp (current_start_dt + timedelta (period - 1)) end_dt + timedelta 1.

Definition inspect {A : Type} (a : A) : {b : A | a = b} := exist _ a eq_refl.

Section Client.
Variable World : Type.
(** The HTTP capability. *)
Variable requests_get : Request -> World -> Response * World.
(** [SchwabAuth().get_valid_access_token(use_gcs_refresh_token=True)]. *)
Variable get_valid_access_token : World -> option string * World.
Variable sort_values : list Row -> list Row.
Variable api_config : APIConfig.
Variable processor : MarketDataProcessor.t.

(** The requests issued and their answers, in order. *)
Definition Exchanges := list (Request * Response).

Definition _fetch_period (access_token symbol : string)
           (start_dt end_dt period time_interval : Z) (w : World)
  : option (list Candle) * (Request * Response) * World :=
  let params :=
    {| q_url := (server api_config ++ "/pricehistory")%string;
       q_authorization := ("Bearer " ++ access_token)%string;
       q_timeout := api_timeout api_config;
       q_symbol := symbol; q_periodType := "day"; q_period := period;
       q_frequencyType := "minute"; q_frequency := time_interval;
       q_startDate := to_ms start_dt; q_endDate := to_ms end_dt;
       q_needExtendedHoursData := "false";
       q_needPreviousClose := "false" |} in
  let (response, w') := requests_get params w in
  let result :=
    match response with
    | RequestException => None
    | Status status_code body =>
        if status_code =? 200 then
          match body with
          | NotJson => None
          | Json (Some (c :: cs)) => Some (c :: cs)
          | Json _ => Some []
          end
        else None
    end in
  (result, (params, response), w').

(** The [while current_start_dt <= end_dt] loop, entered with the
    candles and exchanges accumulated so far. *)
Equations? fetch_loop (access_token symbol : string) (time_interval : Z)
           (end_dt : Z) (all_candles : list Candle) (done : Exchanges)
           (current_start_dt : Z) (w : World)
  : list Candle * Exchanges * World
  by wf (Z.to_nat (days_remaining current_start_dt end_dt)) lt :=
  fetch_loop access_token symbol time_interval end_dt all_candles done
             current_start_dt w
    with inspect (current_start_dt <=? end_dt) := {
    | exist _ false _ := (all_candles, done, w);
    | exist _ true Hle
        with inspect (PeriodOptimizer.get_optimal_period
                        (days_remaining current_start_dt end_dt)) := {
      | exist _ period Hp with inspect (period =? 0) := {
        | exist _ true _ := (all_candles, done, w);
        | exist _ false Hnz :=
            let period_end_dt :=
              clamp (current_start_dt + timedelta (period - 1)) end_dt in
            match _fetch_period access_token symbol current_start_dt
                                period_end_dt period time_interval w with
            | (None, x, w') => ([], done ++ [x], w')
            | (Some candles, x, w') =>
                fetch_loop access_token symbol time_interval end_dt
                           (all_candles ++ candles) (done ++ [x])
                           (period_end_dt + timedelta 1) w'
            end } } }.
Proof.
  apply Z.leb_le in Hle. apply Z.eqb_neq in Hnz.
  set (p := PeriodOptimizer.get_optimal_period _) in *.
  assert (1 <= p).
  { revert Hnz. unfold p, PeriodOptimizer.get_optimal_period.
    cbn.
    repeat match goal with
           | |- context [if ?b then _ else _] => destruct b
           end; lia. }
  clearbody p.
  unfold days_remaining, days, clamp, timedelta, DAY in *.
  assert (Hpe : current_start_dt <= period_end_dt).
  { subst period_end_dt.
    destruct (Z.gtb_spec (current_start_dt + (p - 1) * 86400000000) end_dt); lia. }
  clearbody period_end_dt.
  replace (end_dt - (period_end_dt + 86400000000))
    with ((end_dt - period_end_dt) + (-1) * 86400000000) by lia.
  rewrite Z.div_add by lia.
  pose proof (Z.div_le_mono (end_dt - period_end_dt) (end_dt - current_start_dt)
                            86400000000 ltac:(lia) ltac:(lia)).
  pose proof (Z.div_pos (end_dt - current_start_dt) 86400000000
                        ltac:(lia) ltac:(lia)).
  lia.
Qed.

Definition _fetch_all_periods (access_token symbol : string)
           (start_dt end_dt time_interval : Z) (w : World)
  : list Candle * Exchanges * World :=
  fetch_loop access_token symbol time_interval end_dt [] [] start_dt w.

(** The client object: its cached token. *)
Record t := mk { access_token : option string }.

(** Python truthiness of [Optional[str]]. *)
Definition truthy (s : option string) : bool :=
  match s with
  | Some s' => negb (String.eqb s' "")
  | None => false
  end.

Definition _get_valid_access_token (self : t) (w : World)
  : option string * t * World :=
  if truthy (access_token self) then (access_token self, self, w)
  else
    let (tok, w') := get_valid_access_token w in
    let self' := {| access_token := tok |} in
    if negb (truthy tok) then (None, self', w') else (tok, self', w').

Definition valid_intervals : list Z := [1; 5; 10; 15; 30].

Definition _validate_inputs (self : t) (symbol : string) (time_interval : Z)
           (w : World) : bool * t * World :=
  if negb (existsb (Z.eqb time_interval) valid_intervals) then (false, self, w)
  else if String.eqb symbol "" then (false, self, w)
  else
    let '(tok, self', w') := _get_valid_access_token self w in
    (truthy tok, self', w').

(** [get_price_history], entered with the two dates as
    [_parse_dates] returns them.  [None] is Python's [None]. *)
Definition get_price_history (self : t) (symbol : string)
           (start_dt end_dt time_interval : Z) (w : World)
  : option (list Row) * Exchanges * World :=
  let '(ok, self', w1) := _validate_inputs self symbol time_interval w in
  if negb ok then (None, [], w1)
  else
    let '(all_candles, xs, w2) :=
      _fetch_all_periods (get (access_token self') ""%string) symbol
                         start_dt end_dt time_interval w1 in
    match all_candles with
    | [] => (None, xs, w2)
    | _ => (Some (MarketDataProcessor.process_candles
                    sort_values processor all_candles), xs, w2)
    end.

End Client.

End SchwabMarketDataClient.

(** ** market_data_aggregator *)

Module MarketDataAggregator.

(** A row of the frame once [read_csv], [to_datetime] and [set_index]
    have run: [index] is the wall-clock datetime of the row, in seconds
    since 1970-01-01 00:00:00 of the same wall clock (the format parsed
    has no fraction of a second).  Rows whose text does not match the
    format make [to_datetime] raise and are not frames of this type. *)
Record Bar := mk_bar {
  index : Z; timestamp : Z;
  open : Z; high : Z; low : Z; close : Z; volume : Z
}.

(** [index.time]. *)
Definition time_of_index (i : Z) : Civil.time :=
  let sod := i mod 86400 in
  {| Civil.hour := sod / 3600; Civil.minute := (sod mod 3600) / 60;
     Civil.second := sod mod 60; Civil.microsecond := 0 |}.

Definition market_open : Civil.time := Civil.mk_time 9 30 0 0.
Definition market_close : Civil.time := Civil.mk_time 16 0 0 0.

(** [(df.index.time >= market_open) & (df.index.time < market_close)]. *)
Definition in_market_hours (r : Bar) : bool :=
  Civil.time_leb market_open (time_of_index (index r))
  && Civil.time_ltb (time_of_index (index r)) market_close.

Definition timeframe_mapping (label : string) : option string :=
  if String.eqb label "1m" then Some "1min"%string
  else if String.eqb label "3m" then Some "3min"%string
  else if String.eqb label "5m" then Some "5min"%string
  else if String.eqb label "10m" then Some "10min"%string
  else if String.eqb label "15m" then Some "15min"%string
  else if String.eqb label "30m" then Some "30min"%string
  else if String.eqb label "1h" then Some "1H"%string
  else if String.eqb label "1d" then Some "1D"%string
  else None.

(** The length in seconds of the pandas offset aliases the mapping
    produces.  pandas reads further aliases; they are not modelled. *)
Definition offset_seconds (alias : string) : option Z :=
  if String.eqb alias "1min" then Some 60
  else if String.eqb alias "3min" then Some 180
  else if String.eqb alias "5min" then Some 300
  else if String.eqb alias "10min" then Some 600
  else if String.eqb alias "15min" then Some 900
  else if String.eqb alias "30min" then Some 1800
  else if String.eqb alias "1H" then Some 3600
  else if String.eqb alias "1D" then Some 86400
  else None.

(** [resample] orders the rows by index with a stable sort when they
    are not in order already. *)
Fixpoint insert_bar (r : Bar) (df : list Bar) : list Bar :=
  match df with
  | [] => [r]
  | r' :: rest =>
      if index r <=? index r' then r :: df else r' :: insert_bar r rest
  end.

Fixpoint sort_index (df : list Bar) : list Bar :=
  match df with
  | [] => []
  | r :: rest => insert_bar r (sort_index rest)
  end.

(** The bin of an instant: bins have length [freq] and start at
    [origin], midnight of the first row's day. *)
Definition bin_of (origin freq t : Z) : Z := (t - origin) / freq.

(** [range(lo, hi + 1)]. *)
Definition bins_between (lo hi : Z) : list Z :=
  map (fun i => lo + Z.of_nat i) (seq 0 (Z.to_nat (hi - lo + 1))).

(** [df.resample(freq)]: every bin from the one of the earliest row to
    the one of the latest, empty ones included, each with its left
    edge as label and its rows in index order. *)
Definition resample (freq : Z) (df : list Bar) : list (Z * list Bar) :=
  match sort_index df with
  | [] => []
  | first :: rest =>
      let sorted := first :: rest in
      let origin := index first - index first mod 86400 in
      let lo := bin_of origin freq (index first) in
      let hi := bin_of origin freq (index (last sorted first)) in
      map (fun k => (origin + k * freq,
                     filter (fun r => bin_of origin freq (index r) =? k) sorted))
          (bins_between lo hi)
  end.

(** The aggregations; an empty group gives NaN, except for [sum]. *)
Definition agg_first (col : Bar -> Z) (g : list Bar) : option Z :=
  match g with [] => None | r :: _ => Some (col r) end.

Definition agg_last (col : Bar -> Z) (g : list Bar) : option Z :=
  match g with [] => None | r :: rest => Some (col (last rest r)) end.

Definition agg_max (col : Bar -> Z) (g : list Bar) : option Z :=
  match g with
  | [] => None
  | r :: rest => Some (fold_left (fun m r' => Z.max m (col r')) rest (col r))
  end.

Definition agg_min (col : Bar -> Z) (g : list Bar) : option Z :=
  match g with
  | [] => None
  | r :: rest => Some (fold_left (fun m r' => Z.min m (col r')) rest (col r))
  end.

Definition agg_sum (col : Bar -> Z) (g : list Bar) : Z :=
  fold_left (fun s r => s + col r) g 0.

(** A row of the aggregated frame. *)
Record Aggregated := mk_agg {
  a_datetime : Z;
  a_timestamp : option Z;
  a_open : option Z; a_high : option Z; a_low : option Z; a_close : option Z;
  a_volume : Z
}.

Definition agg (bin : Z * list Bar) : Aggregated :=
  let (label, g) := bin in
  {| a_datetime := label;
     a_timestamp := agg_first timestamp g;
     a_open := agg_first open g;
     a_high := agg_max high g;
     a_low := agg_min low g;
     a_close := agg_last close g;
     a_volume := agg_sum volume g |}.

Definition notna (c : option Z) : bool :=
  match c with Some _ => true | None => false end.

(** [dropna(subset=['open', 'high', 'low', 'close'])]. *)
Definition dropna (df : list Aggregated) : list Aggregated :=
  filter (fun a => notna (a_open a) && notna (a_high a)
                   && notna (a_low a) && notna (a_close a)) df.

(** The frame [aggregate_market_data] writes, for a bin length in
    seconds. *)
Definition aggregate (freq : Z) (df : list Bar) : list Aggregated :=
  let df := filter in_market_hours df in
  dropna (map agg (resample freq df)).

(** [aggregate_market_data] from the frame read to the frame written;
    [None] where pandas is given an alias outside this model. *)
Definition aggregate_market_data (to_timeframe : string) (df : list Bar)
  : option (list Aggregated) :=
  let to_timeframe_pandas :=
    Frame.get (timeframe_mapping to_timeframe) to_timeframe in
  match offset_seconds to_timeframe_pandas with
  | Some freq => Some (aggregate freq df)
  | None => None
  end.

(** The wall-clock bucket of length [freq] a row falls in, by its left
    edge. *)
Definition bucket_start (freq : Z) (r : Bar) : Z := index r / freq * freq.

(** The rows of a series that fall in the bucket starting at [edge]. *)
Definition bucket (freq edge : Z) (bars : list Bar) : list Bar :=
  filter (fun r => bucket_start freq r =? edge) bars.

Definition idx_le (a b : Bar) : Prop := index a <= index b.

(** The sum of a list of integers. *)
Definition sum_list (l : list Z) : Z := fold_right Z.add 0 l.

(** The rows the aggregator works on: those within market hours, in
    index order. *)
Definition kept (df : list Bar) : list Bar :=
  sort_index (filter in_market_hours df).



(** C3, as the specification words it: every input bar is assigned to a
    bucket and contributes to the output. *)
Definition assigns_every_bar (to_timeframe : string) (df : list Bar) : Prop :=
  forall freq out,
    offset_seconds (Frame.get (timeframe_mapping to_timeframe) to_timeframe)
    = Some freq ->
    aggregate_market_data to_timeframe df = Some out ->
    forall r, In r df -> exists o, In o out /\ a_datetime o = bucket_start freq r.

End MarketDataAggregator.

(** ** Sample inputs *)

Module Samples.
Import Frame.

(** 2025-01-01 00:00:00 EST and the day ten days later, as instants. *)
Definition jan_1_2025 : Z := 1735707600000000.
Definition jan_11_2025 : Z := jan_1_2025 + 10 * SchwabMarketDataClient.DAY.

(** A candle stamped 2025-06-02 10:00:00 EDT. *)
Definition candle_10am : Candle :=
  {| c_datetime := Some 1748872800000;
     c_open := Some (Some 59012); c_high := Some (Some 59100);
     c_low := Some (Some 58990); c_close := Some (Some 59050);
     c_volume := Some (Some 120000) |}.

(** A candle stamped 2025-06-02 16:00:00 EDT, a Monday. *)
Definition candle_4pm : Candle :=
  {| c_datetime := Some 1748894400000;
     c_open := Some (Some 59050); c_high := Some (Some 59060);
     c_low := Some (Some 59000); c_close := Some (Some 59010);
     c_volume := Some (Some 98000) |}.

(** A candle stamped 08:00:00 EDT the same day, one stamped 09:45:00,
    and a second candle stamped 10:00:00 with other values. *)
Definition candle_8am : Candle :=
  {| c_datetime := Some 1748865600000;
     c_open := Some (Some 58800); c_high := Some (Some 58850);
     c_low := Some (Some 58790); c_close := Some (Some 58820);
     c_volume := Some (Some 4000) |}.

Definition candle_945 : Candle :=
  {| c_datetime := Some 1748871900000;
     c_open := Some (Some 58950); c_high := Some (Some 59020);
     c_low := Some (Some 58940); c_close := Some (Some 59012);
     c_volume := None |}.

Definition candle_10am_again : Candle :=
  {| c_datetime := Some 1748872800000;
     c_open := Some (Some 1); c_high := Some (Some 2);
     c_low := Some (Some 1); c_close := Some (Some 2);
     c_volume := Some None |}.

Definition raw_candles : list Candle :=
  [candle_10am; candle_8am; candle_10am_again; candle_945].

(** A frame with a repeated timestamp and a negative price. *)
Definition bad_frame : list Row :=
  [ {| timestamp := 1748872800000; datetime := "2025-06-02 10:00:00 EDT";
       open := Some 59012; high := Some 59100; low := Some 58990;
       close := Some 59050; volume := Some 120000 |};
    {| timestamp := 1748872800000; datetime := "2025-06-02 10:01:00 EDT";
       open := Some (-5); high := Some 59100; low := Some 58990;
       close := Some 59050; volume := Some 120000 |} ].

(** A frame that passes, with a null price and a zero volume. *)
Definition soft_frame : list Row :=
  [ {| timestamp := 1748872800000; datetime := "2025-06-02 10:00:00 EDT";
       open := None; high := Some 59100; low := Some 58990;
       close := Some 59050; volume := Some 0 |};
    {| timestamp := 1748872860000; datetime := "2025-06-02 10:01:00 EDT";
       open := Some 59050; high := Some 59100; low := Some 58990;
       close := Some 59050; volume := None |} ].

(** A provider that answers its first request with one candle and every
    later request with status 500; the world counts the requests. *)
Definition flaky_get (r : SchwabMarketDataClient.Request) (n : nat)
  : SchwabMarketDataClient.Response * nat :=
  match n with
  | O => (SchwabMarketDataClient.Status
            200 (SchwabMarketDataClient.Json (Some [candle_10am])), S n)
  | S _ => (SchwabMarketDataClient.Status 500 SchwabMarketDataClient.NotJson, S n)
  end.

(** A credential provider that always hands out a token. *)
Definition token_provider (n : nat) : option string * nat :=
  (Some "token"%string, n).

(** One-minute bars of 2025-06-02 at 09:30, 09:31, 09:32 and 09:34. *)
Definition minute_bars : list MarketDataAggregator.Bar :=
  [ MarketDataAggregator.mk_bar 1748856600 1748871000000 58900 58960 58890 58950 1000;
    MarketDataAggregator.mk_bar 1748856660 1748871060000 58950 58990 58940 58980 2000;
    MarketDataAggregator.mk_bar 1748856720 1748871120000 58980 58985 58910 58920 1500;
    MarketDataAggregator.mk_bar 1748856840 1748871240000 58930 58970 58925 58965 800 ].

(** The bar stamped 16:00:00 of the same day. *)
Definition bar_4pm : MarketDataAggregator.Bar :=
  MarketDataAggregator.mk_bar 1748880000 1748894400000 59050 59060 59000 59010 98000.


End Samples.

(** ** The run of the chunking loop *)

Module FetchTrace.
Import Frame SchwabMarketDataClient.

(** The request [_fetch_period] sends for a window. *)
Definition params_of (api_config : APIConfig) (access_token symbol : string)
           (start_dt end_dt period time_interval : Z) : Request :=
  {| q_url := (server api_config ++ "/pricehistory")%string;
     q_authorization := ("Bearer " ++ access_token)%string;
     q_timeout := api_timeout api_config;
     q_symbol := symbol; q_periodType := "day"; q_period := period;
     q_frequencyType := "minute"; q_frequency := time_interval;
     q_startDate := to_ms start_dt; q_endDate := to_ms end_dt;
     q_needExtendedHoursData := "false";
     q_needPreviousClose := "false" |}.

(** A response [_fetch_period] turns into a list of candles: status 200
    with a body that parses. *)
Definition answered (r : Response) : bool :=
  match r with
  | Status status_code (Json _) => status_code =? 200
  | _ => false
  end.

(** The candles of such a response. *)
Definition candles_of (r : Response) : list Candle :=
  match r with
  | Status _ (Json (Some candles)) => candles
  | _ => []
  end.

(** The period requested when the loop stands at [cur]. *)
Definition period_at (end_dt cur : Z) : Z :=
  PeriodOptimizer.get_optimal_period (days_remaining cur end_dt).

(** The exchanges of a run of the loop from [cur], and the candles it
    adds ([None] when the run is cut by a request that is not answered). *)
Inductive Run (api_config : APIConfig) (access_token symbol : string)
          (time_interval end_dt : Z)
  : Z -> Exchanges -> option (list Candle) -> Prop :=
| Run_done cur :
    end_dt < cur ->
    Run api_config access_token symbol time_interval end_dt cur [] (Some [])
| Run_cut cur response :
    cur <= end_dt ->
    answered response = false ->
    Run api_config access_token symbol time_interval end_dt cur
        [(params_of api_config access_token symbol cur
                    (cur + timedelta (period_at end_dt cur - 1))
                    (period_at end_dt cur) time_interval, response)]
        None
| Run_next cur response rest res :
    cur <= end_dt ->
    answered response = true ->
    Run api_config access_token symbol time_interval end_dt
        (cur + timedelta (period_at end_dt cur)) rest res ->
    Run api_config access_token symbol time_interval end_dt cur
        ((params_of api_config access_token symbol cur
                    (cur + timedelta (period_at end_dt cur - 1))
                    (period_at end_dt cur) time_interval, response) :: rest)
        (option_map (app (candles_of response)) res).

(** The windows of a list of requests follow one another from [s]: each
    starts where the one before it stopped, a day later, spans its
    period, and ends within the range. *)
Fixpoint contiguous_from (end_dt s : Z) (reqs : list Request) : Prop :=
  match reqs with
  | [] => True
  | q :: rest =>
      q_startDate q = to_ms s
      /\ q_endDate q = to_ms (s + timedelta (q_period q - 1))
      /\ 1 <= q_period q
      /\ s + timedelta (q_period q - 1) <= end_dt
      /\ contiguous_from end_dt (s + timedelta (q_period q)) rest
  end.

(** The periods of the requests of a fetch, in order. *)
Definition periods_of (xs : list (Request * Response)) : list Z :=
  map (fun x => q_period (fst x)) xs.


End FetchTrace.

(** ** Local time on the millisecond line *)

Module LocalTime.

(** A time of day in microseconds since midnight. *)
Definition to_us (t : Civil.time) : Z :=
  ((Civil.hour t * 60 + Civil.minute t) * 60 + Civil.second t) * 1000000
  + Civil.microsecond t.

(** The milliseconds since local midnight of an epoch timestamp in
    milliseconds, in a zone. *)
Definition local_ms_of_day (tz : Civil.tzinfo) (timestamp_ms : Z) : Z :=
  let utc_s := timestamp_ms / 1000 in
  ((utc_s + Civil.utcoffset tz utc_s) mod 86400) * 1000 + timestamp_ms mod 1000.

End LocalTime.

(** ** Reading the validator's log *)

Module ValidatorLog.
Import DataQualityValidator.

(** Whether the log holds an error record. *)
Definition has_error (l : log) : bool :=
  existsb (fun e => match fst e with ERROR => true | _ => false end) l.

End ValidatorLog.

(** ** Bars that make sense *)

Module BarShape.
Import MarketDataAggregator.



(** A bar written as a row of the aggregated frame. *)
Definition as_aggregated (r : Bar) : Aggregated :=
  {| a_datetime := index r;
     a_timestamp := Some (timestamp r);
     a_open := Some (open r); a_high := Some (high r);
     a_low := Some (low r); a_close := Some (close r);
     a_volume := volume r |}.

End BarShape.

(** ** More sample inputs *)

Module MoreSamples.
Import Frame.

(** A provider that answers every request with one candle. *)
Definition steady_get (r : SchwabMarketDataClient.Request) (n : nat)
  : SchwabMarketDataClient.Response * nat :=
  (SchwabMarketDataClient.Status
     200 (SchwabMarketDataClient.Json (Some [Samples.candle_10am])), S n).

(** A provider that answers every request with a body without candles. *)
Definition empty_get (r : SchwabMarketDataClient.Request) (n : nat)
  : SchwabMarketDataClient.Response * nat :=
  (SchwabMarketDataClient.Status 200 (SchwabMarketDataClient.Json None), S n).

(** A credential provider that has no token to hand out. *)
Definition no_token_provider (n : nat) : option string * nat := (None, n).

(** A candle without a [datetime] key. *)
Definition candle_undated : Candle :=
  {| c_datetime := None;
     c_open := Some (Some 59012); c_high := Some (Some 59100);
     c_low := Some (Some 58990); c_close := Some (Some 59050);
     c_volume := Some (Some 120000) |}.

End MoreSamples.

(* ===================================================================== *)
(** * Properties *)
(* ===================================================================== *)

(** ** PeriodOptimizer *)

Module PeriodOptimizerFacts.
Import PeriodOptimizer.

(** On a ladder in descending order the loop returns the largest rung
    that fits, or 0 when no rung fits. *)
Lemma first_fitting_largest (periods : list Z) (d : Z) :
  StronglySorted Z.ge periods ->
  (exists p, In p periods /\ p <= d) ->
  In (first_fitting periods d) periods
  /\ first_fitting periods d <= d
  /\ forall c, In c periods -> c <= d -> c <= first_fitting periods d.
Proof.
  induction periods as [|p rest IH]; intros Hs [q [Hq Hle]].
  - destruct Hq.
  - apply StronglySorted_inv in Hs. destruct Hs as [Hrest Hall].
    cbn [first_fitting].
    destruct (Z.geb_spec d p) as [Hfit|Hno].
    + split; [now left|]. split; [lia|].
      intros c [<-|Hc] _; [lia|].
      rewrite Forall_forall in Hall. specialize (Hall c Hc). lia.
    + destruct Hq as [->|Hq]; [lia|].
      destruct (IH Hrest (ex_intro _ q (conj Hq Hle))) as (Hin & Hb & Hmax).
      split; [now right|]. split; [exact Hb|].
      intros c [<-|Hc] Hcd; [lia|]. now apply Hmax.
Qed.

Lemma first_fitting_none (periods : list Z) (d : Z) :
  (forall p, In p periods -> d < p) -> first_fitting periods d = 0.
Proof.
  induction periods as [|p rest IH]; intros H; [reflexivity|].
  cbn [first_fitting].
  destruct (Z.geb_spec d p) as [Hfit|Hno].
  - specialize (H p (or_introl eq_refl)). lia.
  - apply IH. intros q Hq. apply H. now right.
Qed.

Lemma VALID_PERIODS_descending : StronglySorted Z.ge VALID_PERIODS.
Proof.
  unfold VALID_PERIODS.
  repeat (constructor; [|repeat constructor; lia]). constructor.
Qed.

Lemma get_optimal_period_pos (d : Z) : 1 <= d -> 1 <= get_optimal_period d.
Proof.
  intros Hd.
  destruct (first_fitting_largest VALID_PERIODS d VALID_PERIODS_descending)
    as (Hin & _ & Hmax).
  - exists 1. split; [cbn; tauto | lia].
  - apply (Hmax 1); [cbn; tauto | lia].
Qed.

Lemma get_optimal_period_fits (d : Z) : 1 <= d -> get_optimal_period d <= d.
Proof.
  intros Hd.
  apply (first_fitting_largest VALID_PERIODS d VALID_PERIODS_descending).
  exists 1. split; [cbn; tauto | lia].
Qed.

(** C7.  For every [days_remaining >= 1] the optimizer returns the
    largest element of [10, 5, 4, 3, 2, 1] that does not exceed
    [days_remaining] (7 gives 5, 23 gives 10, 3 gives 3); for every
    [days_remaining <= 0] it returns 0. *)
Theorem get_optimal_period_largest_fitting (days_remaining : Z) :
  (1 <= days_remaining ->
     In (get_optimal_period days_remaining) [10; 5; 4; 3; 2; 1]
     /\ get_optimal_period days_remaining <= days_remaining
     /\ forall c, In c [10; 5; 4; 3; 2; 1] -> c <= days_remaining ->
                  c <= get_optimal_period days_remaining)
  /\ (days_remaining <= 0 -> get_optimal_period days_remaining = 0)
  /\ get_optimal_period 7 = 5
  /\ get_optimal_period 23 = 10
  /\ get_optimal_period 3 = 3.
Proof.
  split; [|split; [|repeat split]].
  - intros Hd.
    apply (first_fitting_largest VALID_PERIODS days_remaining
                                 VALID_PERIODS_descending).
    exists 1. split; [cbn; tauto | lia].
  - intros Hd. apply first_fitting_none.
    intros p Hp. cbn in Hp. intuition lia.
Qed.

Lemma get_optimal_period_largest_fitting_witness :
  (In (get_optimal_period 13) [10; 5; 4; 3; 2; 1]
   /\ get_optimal_period 13 <= 13
   /\ forall c, In c [10; 5; 4; 3; 2; 1] -> c <= 13 ->
                c <= get_optimal_period 13)
  /\ get_optimal_period (-2) = 0.
Proof.
  split.
  - apply (proj1 (get_optimal_period_largest_fitting 13)). lia.
  - apply (proj1 (proj2 (get_optimal_period_largest_fitting (-2)))). lia.
Defined.

End PeriodOptimizerFacts.

(** ** The chunking loop of the fetcher *)

Module FetcherFacts.
Import Frame SchwabMarketDataClient.

Lemma days_remaining_pos (current_start_dt end_dt : Z) :
  current_start_dt <= end_dt -> 1 <= days_remaining current_start_dt end_dt.
Proof.
  intros H. unfold days_remaining, days, DAY.
  pose proof (Z.div_pos (end_dt - current_start_dt) 86400000000
                        ltac:(lia) ltac:(lia)).
  lia.
Qed.

(** A period the optimizer hands out never reaches past the end of
    the range, so the clamp leaves it alone. *)
Lemma clamp_inert (current_start_dt end_dt : Z) :
  current_start_dt <= end_dt ->
  let period :=
    PeriodOptimizer.get_optimal_period (days_remaining current_start_dt end_dt) in
  clamp (current_start_dt + timedelta (period - 1)) end_dt
  = current_start_dt + timedelta (period - 1).
Proof.
  intros H period.
  pose proof (days_remaining_pos _ _ H) as Hd.
  pose proof (PeriodOptimizerFacts.get_optimal_period_fits _ Hd) as Hle.
  fold period in Hle.
  unfold clamp, timedelta.
  destruct (Z.gtb_spec (current_start_dt + (period - 1) * DAY) end_dt) as [Hgt|];
    [|reflexivity].
  exfalso. unfold days_remaining, days in Hle.
  assert (Hm : (period - 1) * DAY <= end_dt - current_start_dt).
  { pose proof (Z.mul_div_le (end_dt - current_start_dt) DAY ltac:(reflexivity)).
    assert ((period - 1) * DAY <= (end_dt - current_start_dt) / DAY * DAY).
    { apply Z.mul_le_mono_nonneg_r; [unfold DAY|]; lia. }
    lia. }
  lia.
Qed.

Lemma next_start_advances (current_start_dt end_dt period : Z) :
  current_start_dt <= end_dt -> 1 <= period ->
  current_start_dt + DAY <= next_start current_start_dt end_dt period.
Proof.
  intros H Hp. unfold next_start, clamp, timedelta.
  destruct (Z.gtb_spec (current_start_dt + (period - 1) * DAY) end_dt);
    unfold DAY in *; lia.
Qed.

Lemma days_remaining_next (current_start_dt end_dt period : Z) :
  current_start_dt <= end_dt -> 1 <= period ->
  days_remaining (next_start current_start_dt end_dt period) end_dt
  <= days_remaining current_start_dt end_dt - 1.
Proof.
  intros H Hp.
  pose proof (next_start_advances _ _ _ H Hp) as Hadv.
  unfold days_remaining, days.
  set (n := next_start current_start_dt end_dt period) in *.
  assert ((end_dt - n) / DAY <= (end_dt - current_start_dt + (-1) * DAY) / DAY).
  { apply Z.div_le_mono; [reflexivity | lia]. }
  rewrite Z.div_add in * by (unfold DAY; lia). lia.
Qed.

Section Loop.
Variable World : Type.
Variable requests_get : Request -> World -> Response * World.
Variable api_config : APIConfig.

Local Abbreviation loop := (fetch_loop World requests_get api_config).
Local Abbreviation fetch := (_fetch_period World requests_get api_config).

(** One turn of the [while] loop. *)
Lemma fetch_loop_unfold tok sym iv end_dt all done cur w :
  loop tok sym iv end_dt all done cur w =
  if cur <=? end_dt then
    let period := PeriodOptimizer.get_optimal_period (days_remaining cur end_dt) in
    if period =? 0 then (all, done, w)
    else match fetch tok sym cur
                     (clamp (cur + timedelta (period - 1)) end_dt)
                     period iv w with
         | (None, x, w') => ([], done ++ [x], w')
         | (Some candles, x, w') =>
             loop tok sym iv end_dt (all ++ candles) (done ++ [x])
                  (next_start cur end_dt period) w'
         end
  else (all, done, w).
Proof.
  funelim (loop tok sym iv end_dt all done cur w).
  - now rewrite e.
  - rewrite Hle. cbn zeta. now rewrite e.
  - rewrite Hle. cbn zeta. rewrite Hnz. reflexivity.
Qed.

(** A chunk that yields candles was answered with status 200. *)
Lemma _fetch_period_some tok sym s e p iv w candles x w' :
  fetch tok sym s e p iv w = (Some candles, x, w') -> failed (snd x) = false.
Proof.
  unfold _fetch_period.
  destruct (requests_get _ w) as [response w1].
  intros H. injection H as H <- _. cbn [snd].
  destruct response as [|code body]; [discriminate|].
  cbn [failed]. destruct (code =? 200); [reflexivity | discriminate].
Qed.

(** A chunk answered with a failure yields [None]. *)
Lemma _fetch_period_failed tok sym s e p iv w r x w' :
  fetch tok sym s e p iv w = (r, x, w') -> failed (snd x) = true -> r = None.
Proof.
  unfold _fetch_period.
  destruct (requests_get _ w) as [response w1].
  intros H. injection H as <- <- _. cbn [snd].
  destruct response as [|code body]; [reflexivity|].
  cbn [failed]. destruct (code =? 200); [discriminate | reflexivity].
Qed.

(** Induction over the turns of the loop. *)
Lemma fetch_loop_ind
      (P : list Candle -> Exchanges -> Z -> World ->
           list Candle * Exchanges * World -> Prop)
      tok sym iv end_dt :
  (forall all done cur w, end_dt < cur -> P all done cur w (all, done, w)) ->
  (forall all done cur w x w',
      cur <= end_dt ->
      let period := PeriodOptimizer.get_optimal_period (days_remaining cur end_dt) in
      fetch tok sym cur (clamp (cur + timedelta (period - 1)) end_dt) period iv w
      = (None, x, w') ->
      P all done cur w ([], done ++ [x], w')) ->
  (forall all done cur w candles x w',
      cur <= end_dt ->
      let period := PeriodOptimizer.get_optimal_period (days_remaining cur end_dt) in
      fetch tok sym cur (clamp (cur + timedelta (period - 1)) end_dt) period iv w
      = (Some candles, x, w') ->
      P (all ++ candles) (done ++ [x]) (next_start cur end_dt period) w'
        (loop tok sym iv end_dt (all ++ candles) (done ++ [x])
              (next_start cur end_dt period) w') ->
      P all done cur w
        (loop tok sym iv end_dt (all ++ candles) (done ++ [x])
              (next_start cur end_dt period) w')) ->
  forall all done cur w, P all done cur w (loop tok sym iv end_dt all done cur w).
Proof.
  intros Hstop Hfail Hstep all done cur.
  remember (Z.to_nat (days_remaining cur end_dt)) as n eqn:Hn.
  revert all done cur Hn.
  induction n as [n IH] using lt_wf_ind. intros all done cur Hn w.
  rewrite fetch_loop_unfold.
  destruct (Z.leb_spec cur end_dt) as [Hle|Hgt]; [|now apply Hstop].
  cbn zeta.
  pose proof (days_remaining_pos _ _ Hle) as Hd.
  pose proof (PeriodOptimizerFacts.get_optimal_period_pos _ Hd) as Hp.
  destruct (Z.eqb_spec (PeriodOptimizer.get_optimal_period
                          (days_remaining cur end_dt)) 0) as [E|_]; [lia|].
  destruct (fetch _ _ _ _ _ _ _) as [[[candles|] x] w'] eqn:Ef.
  - apply Hstep; [exact Hle | exact Ef |].
    eapply IH; [|reflexivity].
    pose proof (days_remaining_next _ _ _ Hle Hp). lia.
  - now apply Hfail.
Qed.

Lemma fetch_loop_exchanges_bound tok sym iv end_dt all done cur w :
  (List.length (snd (fst (loop tok sym iv end_dt all done cur w)))
   <= List.length done + Z.to_nat (days_remaining cur end_dt))%nat.
Proof.
  revert all done cur w.
  apply (fetch_loop_ind
           (fun all done cur w r =>
              (List.length (snd (fst r))
               <= List.length done + Z.to_nat (days_remaining cur end_dt))%nat)).
  - intros all done cur w _. cbn [fst snd]. lia.
  - intros all done cur w x w' Hle period _. cbn [fst snd].
    pose proof (days_remaining_pos _ _ Hle).
    rewrite length_app. cbn [List.length]. lia.
  - intros all done cur w candles x w' Hle period _ IH.
    pose proof (days_remaining_pos _ _ Hle) as Hd.
    pose proof (days_remaining_next _ _ period Hle
                  (PeriodOptimizerFacts.get_optimal_period_pos _ Hd)).
    rewrite length_app in IH. cbn [List.length] in IH. lia.
Qed.

(** C10.  Whenever the loop body runs ([current_start_dt <= end_dt]),
    [days_remaining] is at least 1, so the period chosen is at least 1
    and the next start pointer lies at least one day after the current
    one; the loop takes its next turn from that pointer, and issues at
    most [days_remaining] requests before it stops. *)
Theorem chunking_loop_terminates tok sym iv end_dt all done cur w :
  cur <= end_dt ->
  let period := PeriodOptimizer.get_optimal_period (days_remaining cur end_dt) in
  1 <= days_remaining cur end_dt
  /\ 1 <= period
  /\ cur + DAY <= next_start cur end_dt period
  /\ loop tok sym iv end_dt all done cur w
     = match fetch tok sym cur (clamp (cur + timedelta (period - 1)) end_dt)
                   period iv w with
       | (None, x, w') => ([], done ++ [x], w')
       | (Some candles, x, w') =>
           loop tok sym iv end_dt (all ++ candles) (done ++ [x])
                (next_start cur end_dt period) w'
       end
  /\ (List.length (snd (fst (loop tok sym iv end_dt all done cur w)))
      <= List.length done + Z.to_nat (days_remaining cur end_dt))%nat.
Proof.
  intros Hle period.
  pose proof (days_remaining_pos _ _ Hle) as Hd.
  pose proof (PeriodOptimizerFacts.get_optimal_period_pos _ Hd) as Hp.
  fold period in Hp.
  split; [exact Hd|]. split; [exact Hp|].
  split; [now apply next_start_advances|].
  split; [|apply fetch_loop_exchanges_bound].
  rewrite fetch_loop_unfold.
  destruct (Z.leb_spec cur end_dt) as [_|Hgt]; [|lia].
  cbn zeta. fold period.
  destruct (Z.eqb_spec period 0) as [E|_]; [lia | reflexivity].
Qed.

(** Once a chunk request has failed, nothing is returned. *)
Lemma fetch_loop_fail_fast tok sym iv end_dt all done cur w :
  (forall x, In x done -> failed (snd x) = false) ->
  (exists x, In x (snd (fst (loop tok sym iv end_dt all done cur w)))
             /\ failed (snd x) = true) ->
  fst (fst (loop tok sym iv end_dt all done cur w)) = [].
Proof.
  revert all done cur w.
  apply (fetch_loop_ind
           (fun all done cur w r =>
              (forall x, In x done -> failed (snd x) = false) ->
              (exists x, In x (snd (fst r)) /\ failed (snd x) = true) ->
              fst (fst r) = [])).
  - intros all done cur w _ Hok [x [Hin Hf]]. cbn in Hin.
    rewrite (Hok x Hin) in Hf. discriminate.
  - reflexivity.
  - intros all done cur w candles x w' Hle period Ef IH Hok Hbad.
    apply IH; [|exact Hbad].
    intros y Hy. apply in_app_or in Hy. destruct Hy as [Hy|[<-|[]]].
    + now apply Hok.
    + eapply _fetch_period_some; exact Ef.
Qed.

End Loop.

End FetcherFacts.


Module ClientFacts.
Import Frame SchwabMarketDataClient.

Section Client.
Variable World : Type.
Variable requests_get : Request -> World -> Response * World.
Variable get_valid_access_token : World -> option string * World.
Variable sort_values : list Row -> list Row.
Variable api_config : APIConfig.
Variable processor : MarketDataProcessor.t.

Local Abbreviation fetch_all := (_fetch_all_periods World requests_get api_config).
Local Abbreviation price_history :=
  (get_price_history World requests_get get_valid_access_token sort_values
                     api_config processor).

(** C8.  If any chunk request of a fetch fails (transport error or a
    status other than 200), [_fetch_all_periods] returns none of the
    candles accumulated so far and [get_price_history] returns [None]. *)
Theorem chunk_failure_fails_fetch self symbol start_dt end_dt time_interval w :
  (forall tok,
      (exists x, In x (snd (fst (fetch_all tok symbol start_dt end_dt time_interval w)))
                 /\ failed (snd x) = true) ->
      fst (fst (fetch_all tok symbol start_dt end_dt time_interval w)) = [])
  /\ ((exists x, In x (snd (fst (price_history self symbol start_dt end_dt
                                               time_interval w)))
                 /\ failed (snd x) = true) ->
      fst (fst (price_history self symbol start_dt end_dt time_interval w)) = None).
Proof.
  assert (Hall : forall tok w1,
      (exists x, In x (snd (fst (fetch_all tok symbol start_dt end_dt time_interval w1)))
                 /\ failed (snd x) = true) ->
      fst (fst (fetch_all tok symbol start_dt end_dt time_interval w1)) = []).
  { intros tok w1. unfold _fetch_all_periods.
    apply FetcherFacts.fetch_loop_fail_fast. intros x []. }
  split; [intros tok; apply Hall|].
  unfold get_price_history.
  destruct (_validate_inputs _ _ _ _ _ _) as [[ok self'] w1].
  destruct ok; cbn [negb].
  - specialize (Hall (get (access_token self') ""%string) w1).
    destruct (fetch_all _ _ _ _ _ _) as [[all_candles xs] w2].
    cbn [fst snd] in Hall.
    destruct all_candles as [|c cs]; [reflexivity|].
    cbn [fst snd]. intros Hbad. discriminate (Hall Hbad).
  - cbn [fst snd]. intros [x [[] _]].
Qed.

End Client.

Lemma chunk_failure_fails_fetch_witness :
  fst (fst (get_price_history nat Samples.flaky_get Samples.token_provider
                              insertion_sort default_api MarketDataProcessor.default
                              {| access_token := None |} "SPY"
                              Samples.jan_1_2025 Samples.jan_11_2025 5 O)) = None.
Proof.
  apply (proj2 (chunk_failure_fails_fetch
                  nat Samples.flaky_get Samples.token_provider insertion_sort
                  default_api MarketDataProcessor.default
                  {| access_token := None |} "SPY"
                  Samples.jan_1_2025 Samples.jan_11_2025 5 O)).
  eexists. split.
  - vm_compute. right. left. reflexivity.
  - reflexivity.
Defined.

Lemma chunking_loop_terminates_witness :
  1 <= days_remaining Samples.jan_1_2025 Samples.jan_11_2025
  /\ PeriodOptimizer.get_optimal_period
       (days_remaining Samples.jan_1_2025 Samples.jan_11_2025) = 10
  /\ Samples.jan_1_2025 + DAY
     <= next_start Samples.jan_1_2025 Samples.jan_11_2025 10
  /\ (List.length (snd (fst (_fetch_all_periods
                               nat Samples.flaky_get default_api "token" "SPY"
                               Samples.jan_1_2025 Samples.jan_11_2025 5 O)))
      <= 11)%nat.
Proof.
  pose proof (FetcherFacts.chunking_loop_terminates
                nat Samples.flaky_get default_api "token" "SPY" 5
                Samples.jan_11_2025 [] [] Samples.jan_1_2025 O
                ltac:(vm_compute; discriminate)) as H.
  cbv zeta in H. destruct H as (H1 & H2 & H3 & _ & H5).
  split; [exact H1|]. split; [reflexivity|]. split; [exact H3 | exact H5].
Defined.

End ClientFacts.

(** ** The session filter *)

Module SessionFacts.
Import Frame MarketDataProcessor.

Lemma time_compare_antisym (a b : Civil.time) :
  Civil.time_compare b a = CompOpp (Civil.time_compare a b).
Proof.
  unfold Civil.time_compare.
  rewrite (Z.compare_antisym (Civil.hour a)), (Z.compare_antisym (Civil.minute a)),
    (Z.compare_antisym (Civil.second a)), (Z.compare_antisym (Civil.microsecond a)).
  destruct (Civil.hour a ?= Civil.hour b); cbn; try reflexivity.
  destruct (Civil.minute a ?= Civil.minute b); cbn; try reflexivity.
  destruct (Civil.second a ?= Civil.second b); cbn; reflexivity.
Qed.

Lemma time_compare_eq (a b : Civil.time) :
  Civil.time_compare a b = Eq -> a = b.
Proof.
  destruct a as [h m s u], b as [h' m' s' u']. unfold Civil.time_compare. cbn.
  destruct (h ?= h') eqn:Eh; try discriminate.
  destruct (m ?= m') eqn:Em; try discriminate.
  destruct (s ?= s') eqn:Es; try discriminate.
  intros Eu.
  apply Z.compare_eq in Eh, Em, Es, Eu. congruence.
Qed.

(** With the times of [MarketConfig], in any zone, the filter accepts
    what the specified rule accepts, and also exactly 16:00:00 on a day
    that is not an early-close day. *)
Lemma accepted_vs_spec (tz : Civil.tzinfo) (candle : Candle) :
  let self := {| timezone := tz;
                 market_open := Civil.mk_time 9 30 0 0;
                 market_close := Civil.mk_time 16 0 0 0;
                 early_close := Civil.mk_time 13 0 0 0 |} in
  let dt := Civil.fromtimestamp_ms tz (get (c_datetime candle) 0) in
  accepted self candle
  = is_regular_session_spec dt
    || (Civil.time_eqb (Civil.time_of dt) (Civil.mk_time 16 0 0 0)
        && negb (early_close_day dt)).
Proof.
  intros self dt.
  unfold accepted, _process_single_candle, is_regular_session_spec,
    early_close_day, Civil.time_eqb, Civil.time_leb, Civil.time_ltb, Civil.time_gtb.
  cbn [timezone market_open market_close early_close self].
  fold dt. set (t := Civil.time_of dt). clearbody t. clearbody dt.
  rewrite (time_compare_antisym t (Civil.mk_time 9 30 0 0)).
  destruct (Civil.time_compare t (Civil.mk_time 16 0 0 0)) eqn:Ec.
  - apply time_compare_eq in Ec. rewrite Ec. cbn.
    destruct (Civil.month dt =? 7), (Civil.day dt =? 3),
      (Civil.month dt =? 11), (_is_fourth_friday dt),
      (Civil.month dt =? 12), (Civil.day dt =? 24); reflexivity.
  - destruct (Civil.time_compare t (Civil.mk_time 9 30 0 0));
      destruct (Civil.time_compare t (Civil.mk_time 13 0 0 0));
      destruct (Civil.month dt =? 7), (Civil.day dt =? 3),
        (Civil.month dt =? 11), (_is_fourth_friday dt),
        (Civil.month dt =? 12), (Civil.day dt =? 24); reflexivity.
  - assert (Ho : Civil.time_compare t (Civil.mk_time 9 30 0 0) = Gt).
    { revert Ec. unfold Civil.time_compare. cbn.
      destruct (Civil.hour t ?= 16) eqn:Eh; try discriminate.
      - apply Z.compare_eq in Eh. rewrite Eh. reflexivity.
      - intros _. apply Z.compare_gt_iff in Eh.
        destruct (Z.compare_spec (Civil.hour t) 9); try lia. reflexivity. }
    rewrite Ho. cbn. destruct (Civil.time_compare t (Civil.mk_time 13 0 0 0));
      destruct (Civil.month dt =? 7), (Civil.day dt =? 3),
        (Civil.month dt =? 11), (_is_fourth_friday dt),
        (Civil.month dt =? 12), (Civil.day dt =? 24); reflexivity.
Qed.

(** C1.  The candle stamped 2025-06-02 16:00:00 EDT, an ordinary Monday:
    the specified rule rejects it (the close bound is exclusive), the
    filter of the code keeps it. *)
Theorem session_close_is_accepted :
  let dt := Civil.fromtimestamp_ms Civil.America_New_York 1748894400000 in
  (Civil.year dt, Civil.month dt, Civil.day dt) = (2025, 6, 2)
  /\ Civil.time_of dt = Civil.mk_time 16 0 0 0
  /\ early_close_day dt = false
  /\ is_regular_session_spec dt = false
  /\ _process_single_candle default Samples.candle_4pm
     = Some {| timestamp := 1748894400000;
               datetime := "2025-06-02 16:00:00 EDT";
               open := Some 59050; high := Some 59060; low := Some 59000;
               close := Some 59010; volume := Some 98000 |}.
Proof.
  cbv zeta. repeat split; vm_compute; reflexivity.
Qed.

End SessionFacts.

(** ** Sorting and dropping duplicates *)

Module FrameFacts.
Import Frame.

Definition ts_le (a b : Row) : Prop := timestamp a <= timestamp b.
Definition ts_lt (a b : Row) : Prop := timestamp a < timestamp b.

Lemma insert_row_perm (r : Row) (df : list Row) :
  Permutation (r :: df) (insert_row r df).
Proof.
  induction df as [|r' rest IH]; cbn; [reflexivity|].
  destruct (timestamp r <=? timestamp r'); [reflexivity|].
  rewrite perm_swap. now apply perm_skip.
Qed.

Lemma insert_row_sorted (r : Row) (df : list Row) :
  Sorted ts_le df -> Sorted ts_le (insert_row r df).
Proof.
  induction df as [|r' rest IH]; intros Hs; cbn.
  - repeat constructor.
  - destruct (Z.leb_spec (timestamp r) (timestamp r')) as [Hle|Hgt].
    + constructor; [exact Hs|]. constructor. exact Hle.
    + apply Sorted_inv in Hs. destruct Hs as [Hrest Hhd].
      constructor; [now apply IH|].
      destruct rest as [|r'' rest']; cbn.
      * constructor. unfold ts_le. lia.
      * destruct (Z.leb_spec (timestamp r) (timestamp r'')).
        -- constructor. unfold ts_le. lia.
        -- constructor. now apply HdRel_inv in Hhd.
Qed.

Lemma insertion_sort_sorts : sorts_by_timestamp insertion_sort.
Proof.
  split.
  - induction df as [|r rest IH]; cbn; [reflexivity|].
    rewrite <- insert_row_perm. now apply perm_skip.
  - induction df as [|r rest IH]; cbn; [constructor|].
    now apply insert_row_sorted.
Qed.

Lemma ts_le_strongly (df : list Row) :
  Sorted ts_le df -> StronglySorted ts_le df.
Proof.
  apply Sorted_StronglySorted. intros a b c. unfold ts_le. lia.
Qed.

Lemma existsb_eqb_In (x : Z) (seen : list Z) :
  existsb (Z.eqb x) seen = true <-> In x seen.
Proof.
  rewrite existsb_exists. split.
  - intros [y [Hy E]]. apply Z.eqb_eq in E. now subst.
  - intros H. exists x. split; [exact H | apply Z.eqb_refl].
Qed.

(** A row that survives stands in the frame and its timestamp was not
    seen before. *)
Lemma drop_duplicates_from_In (seen : list Z) (df : list Row) (r : Row) :
  In r (drop_duplicates_from seen df) -> In r df /\ ~ In (timestamp r) seen.
Proof.
  revert seen. induction df as [|a rest IH]; intros seen; cbn; [tauto|].
  destruct (existsb (Z.eqb (timestamp a)) seen) eqn:E.
  - intros H. destruct (IH _ H). tauto.
  - intros [<-|H].
    + split; [now left|]. rewrite <- existsb_eqb_In. congruence.
    + destruct (IH _ H) as [Hin Hns]. split; [now right|].
      intros Hs. apply Hns. now right.
Qed.

(** Every timestamp of the frame is kept once, unless seen before. *)
Lemma drop_duplicates_from_covers (seen : list Z) (df : list Row) (r : Row) :
  In r df ->
  In (timestamp r) seen
  \/ exists r', In r' (drop_duplicates_from seen df) /\ timestamp r' = timestamp r.
Proof.
  revert seen. induction df as [|a rest IH]; intros seen; cbn; [tauto|].
  destruct (existsb (Z.eqb (timestamp a)) seen) eqn:E.
  - intros [<-|H].
    + left. now apply existsb_eqb_In.
    + destruct (IH seen H) as [Hs|[r' [Hr' Ht]]]; [now left|].
      right. now exists r'.
  - intros [<-|H].
    + right. exists a. split; [now left | reflexivity].
    + destruct (IH (timestamp a :: seen) H) as [[Hs|Hs]|[r' [Hr' Ht]]].
      * right. exists a. split; [now left | exact Hs].
      * now left.
      * right. exists r'. split; [now right | exact Ht].
Qed.


(** On a frame in ascending order the rows kept are in strictly
    ascending order. *)
Lemma drop_duplicates_from_increasing (seen : list Z) (df : list Row) :
  StronglySorted ts_le df -> StronglySorted ts_lt (drop_duplicates_from seen df).
Proof.
  revert seen. induction df as [|a rest IH]; intros seen Hs; cbn; [constructor|].
  apply StronglySorted_inv in Hs. destruct Hs as [Hrest Hall].
  destruct (existsb (Z.eqb (timestamp a)) seen); [now apply IH|].
  constructor; [now apply IH|].
  apply Forall_forall. intros r Hr.
  destruct (drop_duplicates_from_In _ _ _ Hr) as [Hin Hns].
  rewrite Forall_forall in Hall. specialize (Hall r Hin).
  unfold ts_le, ts_lt in *.
  assert (timestamp r <> timestamp a) by (intros E; apply Hns; now left).
  lia.
Qed.

(** A frame in strictly ascending order has nothing to drop. *)
Lemma drop_duplicates_from_fixed (seen : list Z) (df : list Row) :
  StronglySorted ts_lt df ->
  (forall r, In r df -> ~ In (timestamp r) seen) ->
  drop_duplicates_from seen df = df.
Proof.
  revert seen. induction df as [|a rest IH]; intros seen Hs Hns; cbn; [reflexivity|].
  apply StronglySorted_inv in Hs. destruct Hs as [Hrest Hall].
  destruct (existsb (Z.eqb (timestamp a)) seen) eqn:E.
  - apply existsb_eqb_In in E. exfalso. apply (Hns a); [now left | exact E].
  - f_equal. apply IH; [exact Hrest|].
    intros r Hr [Heq|Hs].
    + rewrite Forall_forall in Hall. specialize (Hall r Hr).
      unfold ts_lt in Hall. lia.
    + apply (Hns r); [now right | exact Hs].
Qed.

(** Sorting a frame that is in strictly ascending order already
    returns it unchanged, whichever sort is used. *)
Lemma sorted_permutation_fixed (df df' : list Row) :
  StronglySorted ts_lt df -> Permutation df df' -> Sorted ts_le df' -> df' = df.
Proof.
  revert df'. induction df as [|a rest IH]; intros df' Hs Hp Hs'.
  - now apply Permutation_nil in Hp.
  - destruct df' as [|b rest'].
    { apply Permutation_sym, Permutation_nil in Hp. discriminate. }
    apply StronglySorted_inv in Hs. destruct Hs as [Hrest Hall].
    apply ts_le_strongly in Hs'.
    apply StronglySorted_inv in Hs'. destruct Hs' as [Hrest' Hall'].
    rewrite Forall_forall in Hall, Hall'.
    assert (Hb : In b (a :: rest)).
    { eapply Permutation_in; [apply Permutation_sym; exact Hp | now left]. }
    assert (Ha : In a (b :: rest')).
    { eapply Permutation_in; [exact Hp | now left]. }
    assert (b = a).
    { destruct Hb as [->|Hb]; [reflexivity|].
      destruct Ha as [->|Ha]; [reflexivity|].
      specialize (Hall b Hb). specialize (Hall' a Ha).
      unfold ts_lt, ts_le in *. lia. }
    subst b. f_equal. apply IH; [exact Hrest | | ].
    + eapply Permutation_cons_inv. exact Hp.
    + clear - Hrest'. induction Hrest'; constructor; [assumption|].
      destruct l; constructor.
      apply Forall_inv in H. exact H.
Qed.

End FrameFacts.

(** ** process_candles *)

Module ProcessorFacts.
Import Frame MarketDataProcessor FrameFacts.

(** The loop collects exactly the rows of the candles that survive the
    session filter. *)
Lemma collect_In (self : t) (candles : list Candle) (r : Row) :
  In r (collect self candles)
  <-> exists c, In c candles /\ _process_single_candle self c = Some r.
Proof.
  induction candles as [|c rest IH]; cbn.
  - split; [tauto | intros [c [[] _]]].
  - destruct (_process_single_candle self c) as [r0|] eqn:E; cbn; rewrite IH.
    + split.
      * intros [<-|[c' [Hc' Hr]]]; [exists c; tauto | exists c'; tauto].
      * intros [c' [[<-|Hc'] Hr]]; [left; congruence | right; exists c'; tauto].
    + split.
      * intros [c' [Hc' Hr]]. exists c'. tauto.
      * intros [c' [[<-|Hc'] Hr]]; [congruence | exists c'; tauto].
Qed.

(** A surviving row, read back as a candle, survives again as itself. *)
Lemma _process_single_candle_as_candle (self : t) (c : Candle) (r : Row) :
  _process_single_candle self c = Some r ->
  _process_single_candle self (as_candle r) = Some r.
Proof.
  unfold _process_single_candle.
  set (ts := get (c_datetime c) 0).
  destruct (_ || _) eqn:E1; [discriminate|].
  destruct (_ && _ && _) eqn:E2; [discriminate|].
  destruct ((Civil.month _ =? 11) && _ && _) eqn:E3; [discriminate|].
  destruct ((Civil.month _ =? 12) && _ && _) eqn:E4; [discriminate|].
  intros H. injection H as <-.
  cbn [as_candle get c_datetime c_open c_high c_low c_close c_volume
       timestamp open high low close volume].
  rewrite E1, E2, E3, E4. reflexivity.
Qed.

Lemma collect_as_candle (self : t) (df : list Row) :
  (forall r, In r df -> exists c, _process_single_candle self c = Some r) ->
  collect self (map as_candle df) = df.
Proof.
  induction df as [|r rest IH]; intros H; cbn; [reflexivity|].
  destruct (H r (or_introl eq_refl)) as [c Hc].
  rewrite (_process_single_candle_as_candle _ _ _ Hc).
  f_equal. apply IH. intros r' Hr'. apply H. now right.
Qed.

Section Sort.
Variable sort_values : list Row -> list Row.
Hypothesis sort_ok : sorts_by_timestamp sort_values.

Lemma process_candles_eq (self : t) (candles : list Candle) :
  process_candles sort_values self candles
  = drop_duplicates (sort_values (collect self candles)).
Proof.
  unfold process_candles.
  destruct (collect self candles) as [|r rest] eqn:E; [|reflexivity].
  pose proof (sort_perm _ sort_ok []) as Hp.
  apply Permutation_nil in Hp. rewrite Hp. reflexivity.
Qed.

Lemma process_candles_increasing (self : t) (candles : list Candle) :
  StronglySorted ts_lt (process_candles sort_values self candles).
Proof.
  rewrite process_candles_eq. apply drop_duplicates_from_increasing.
  apply ts_le_strongly. apply (sort_sorted _ sort_ok).
Qed.

Lemma process_candles_In (self : t) (candles : list Candle) (r : Row) :
  In r (process_candles sort_values self candles) ->
  exists c, In c candles /\ _process_single_candle self c = Some r.
Proof.
  rewrite process_candles_eq. intros H.
  apply drop_duplicates_from_In in H. destruct H as [H _].
  apply collect_In.
  eapply Permutation_in; [apply Permutation_sym, (sort_perm _ sort_ok) | exact H].
Qed.


(** C9.  Cleaning is idempotent: cleaning the rows of a cleaned series,
    read back as candles, reproduces the series. *)
Theorem process_candles_idempotent (self : t) (candles : list Candle) :
  process_candles sort_values self
                  (map as_candle (process_candles sort_values self candles))
  = process_candles sort_values self candles.
Proof.
  set (out := process_candles sort_values self candles).
  rewrite process_candles_eq.
  rewrite collect_as_candle.
  - pose proof (process_candles_increasing self candles) as Hinc. fold out in Hinc.
    rewrite (sorted_permutation_fixed out (sort_values out) Hinc
               (sort_perm _ sort_ok out) (sort_sorted _ sort_ok out)).
    apply drop_duplicates_from_fixed; [exact Hinc | intros r _ []].
  - intros r Hr. destruct (process_candles_In _ _ _ Hr) as [c [_ Hc]].
    now exists c.
Qed.

End Sort.

Example process_candles_sample :
  map (fun r => (timestamp r, datetime r, open r))
      (process_candles insertion_sort default Samples.raw_candles)
  = [(1748871900000, "2025-06-02 09:45:00 EDT"%string, Some 58950);
     (1748872800000, "2025-06-02 10:00:00 EDT"%string, Some 59012)].
Proof. vm_compute. reflexivity. Qed.


Lemma process_candles_idempotent_witness :
  process_candles insertion_sort default
                  (map as_candle
                       (process_candles insertion_sort default Samples.raw_candles))
  = process_candles insertion_sort default Samples.raw_candles.
Proof.
  exact (process_candles_idempotent insertion_sort insertion_sort_sorts
                                    default Samples.raw_candles).
Defined.

End ProcessorFacts.

(** ** DataQualityValidator *)

Module ValidatorFacts.
Import Frame DataQualityValidator.

Lemma is_empty_true {A : Type} (l : list A) : is_empty l = true <-> l = [].
Proof. destruct l; cbn; split; congruence. Qed.

Lemma filter_nil {A : Type} (f : A -> bool) (l : list A) :
  filter f l = [] <-> forall x, In x l -> f x = false.
Proof.
  induction l as [|a l IH]; cbn.
  - split; [intros _ x [] | reflexivity].
  - destruct (f a) eqn:E.
    + split; [discriminate|]. intros H. specialize (H a (or_introl eq_refl)).
      congruence.
    + rewrite IH. split.
      * intros H x [<-|Hx]; [exact E | now apply H].
      * intros H x Hx. apply H. now right.
Qed.

Section Duplicated.
Context {K : Type} (eqb : K -> K -> bool) (key : Row -> K).
Hypothesis eqb_eq : forall a b, eqb a b = true <-> a = b.

Lemma occurrences_map (k : K) (df : list Row) :
  List.length (filter (fun r' => eqb (key r') k) df)
  = List.length (filter (fun k' => eqb k' k) (map key df)).
Proof.
  induction df as [|a df IH]; cbn; [reflexivity|].
  destruct (eqb (key a) k); cbn; now rewrite IH.
Qed.

Lemma occurrences_zero (k : K) (ks : list K) :
  ~ In k ks -> filter (fun k' => eqb k' k) ks = [].
Proof.
  intros H. apply filter_nil. intros x Hx.
  destruct (eqb x k) eqn:E; [|reflexivity].
  apply eqb_eq in E. now subst.
Qed.

Lemma occurrences_pos (k : K) (ks : list K) :
  In k ks -> (1 <= List.length (filter (fun k' => eqb k' k) ks))%nat.
Proof.
  induction ks as [|a ks IH]; cbn; [tauto|].
  intros [->|H].
  - rewrite (proj2 (eqb_eq k k) eq_refl). cbn. lia.
  - destruct (eqb a k); cbn; [lia | now apply IH].
Qed.

Lemma NoDup_occurrences (ks : list K) :
  NoDup ks <->
  forall k, In k ks -> (List.length (filter (fun k' => eqb k' k) ks) <= 1)%nat.
Proof.
  induction ks as [|a ks IH].
  - split; [intros _ k [] | constructor].
  - split.
    + intros Hnd k Hk. apply NoDup_cons_iff in Hnd. destruct Hnd as [Hna Hnd].
      cbn. destruct (eqb a k) eqn:E.
      * apply eqb_eq in E. subst a. rewrite (occurrences_zero _ _ Hna). cbn. lia.
      * destruct Hk as [->|Hk].
        { rewrite (proj2 (eqb_eq k k) eq_refl) in E. discriminate. }
        now apply (proj1 IH).
    + intros H. apply NoDup_cons_iff. split.
      * intros Ha. specialize (H a (or_introl eq_refl)). cbn in H.
        rewrite (proj2 (eqb_eq a a) eq_refl) in H. cbn in H.
        pose proof (occurrences_pos _ _ Ha). lia.
      * apply IH. intros k Hk. specialize (H k (or_intror Hk)). cbn in H.
        destruct (eqb a k); cbn in H; lia.
Qed.

(** No row is flagged by [duplicated] exactly when no key appears more
    than once. *)
Lemma duplicated_nil (df : list Row) :
  duplicated eqb key df = [] <-> NoDup (map key df).
Proof.
  unfold duplicated. rewrite filter_nil, NoDup_occurrences. split.
  - intros H k Hk. apply in_map_iff in Hk. destruct Hk as [r [<- Hr]].
    specialize (H r Hr). apply Nat.leb_gt in H.
    rewrite occurrences_map in H. lia.
  - intros H r Hr. apply Nat.leb_gt. rewrite occurrences_map.
    specialize (H (key r) (in_map key _ _ Hr)). lia.
Qed.

End Duplicated.

Lemma is_monotonic_increasing_Sorted (l : list Z) :
  is_monotonic_increasing l = true <-> Sorted Z.le l.
Proof.
  induction l as [|x rest IH]; [split; [constructor | reflexivity]|].
  cbn [is_monotonic_increasing]. destruct rest as [|y rest'].
  - split; [repeat constructor | reflexivity].
  - rewrite andb_true_iff, IH, Z.leb_le. split.
    + intros [Hle Hs]. constructor; [exact Hs | now constructor].
    + intros Hs. apply Sorted_inv in Hs. destruct Hs as [Hs Hhd].
      apply HdRel_inv in Hhd. tauto.
Qed.

Lemma lt0_false (c : cell) : lt0 c = false <-> forall z, c = Some z -> 0 <= z.
Proof.
  destruct c as [z|]; cbn.
  - rewrite Z.ltb_ge. split; [intros H z' [= <-]; exact H | intros H; now apply H].
  - split; [discriminate | reflexivity].
Qed.

Lemma no_negative_price_iff (r : Row) :
  lt0 (open r) || lt0 (high r) || lt0 (low r) || lt0 (close r) = false
  <-> no_negative_price r.
Proof.
  rewrite !orb_false_iff, !lt0_false. unfold no_negative_price. cbn [In]. split.
  - intros [[[Ho Hh] Hl] Hc] z [H|[H|[H|[H|[]]]]]; eauto.
  - intros H. repeat split; intros z Hz; apply H; rewrite Hz; tauto.
Qed.

(** What each check returns. *)
Lemma _check_duplicate_timestamps_passes (df : list Row) :
  fst (_check_duplicate_timestamps df) = true <-> NoDup (map timestamp df).
Proof.
  unfold _check_duplicate_timestamps.
  rewrite <- (duplicated_nil Z.eqb timestamp Z.eqb_eq), <- is_empty_true.
  destruct (is_empty _); cbn; split; congruence.
Qed.

Lemma _check_duplicate_datetime_passes (df : list Row) :
  fst (_check_duplicate_datetime df) = true <-> NoDup (map datetime df).
Proof.
  unfold _check_duplicate_datetime.
  rewrite <- (duplicated_nil String.eqb datetime String.eqb_eq), <- is_empty_true.
  destruct (is_empty _); cbn; split; congruence.
Qed.

Lemma _check_null_values_passes (df : list Row) :
  fst (_check_null_values df) = true.
Proof. unfold _check_null_values. now destruct (_ <? _)%nat. Qed.

Lemma _check_negative_prices_passes (df : list Row) :
  fst (_check_negative_prices df) = true
  <-> forall r, In r df -> no_negative_price r.
Proof.
  unfold _check_negative_prices.
  transitivity (filter (fun r => lt0 (open r) || lt0 (high r) || lt0 (low r)
                                 || lt0 (close r)) df = []).
  - rewrite <- is_empty_true. destruct (is_empty _); cbn; split; congruence.
  - rewrite filter_nil. split; intros H r Hr; apply no_negative_price_iff, H, Hr.
Qed.

Lemma _check_volume_values_passes (df : list Row) :
  fst (_check_volume_values df) = true.
Proof. unfold _check_volume_values. now destruct (negb _). Qed.

Lemma _check_timestamp_ordering_passes (df : list Row) :
  fst (_check_timestamp_ordering df) = true <-> Sorted Z.le (map timestamp df).
Proof.
  unfold _check_timestamp_ordering. rewrite <- is_monotonic_increasing_Sorted.
  destruct (is_monotonic_increasing _); cbn; split; congruence.
Qed.

(** The loop passes exactly when every validation does. *)
Lemma run_passes (vs : list (check * (list Row -> bool * log))) (df : list Row) :
  fst (run vs df) = forallb (fun v => fst (snd v df)) vs.
Proof.
  induction vs as [|[c validation] rest IH]; cbn; [reflexivity|].
  destruct (validation df) as [ok l]. cbn. destruct ok; cbn; [|reflexivity].
  rewrite <- IH. now destruct (run rest df).
Qed.

(** C5.  Validation passes exactly when the input is a non-empty frame
    on which none of the four hard checks fires: no epoch timestamp and
    no datetime string appears more than once, no open, high, low or
    close is negative, and the timestamps are non-decreasing as given.
    The null check and the volume check return [True] on every frame,
    so nulls and volumes [<= 0] never make validation fail.  An absent or
    empty input fails with the single record that no data can be
    validated, before any check has run. *)
Theorem validate_dataframe_passed (df : option (list Row)) :
  (fst (validate_dataframe df) = true <->
   exists rows, df = Some rows /\ rows <> []
                /\ NoDup (map timestamp rows)
                /\ NoDup (map datetime rows)
                /\ (forall r, In r rows -> no_negative_price r)
                /\ Sorted Z.le (map timestamp rows))
  /\ (forall rows, fst (_check_null_values rows) = true
                   /\ fst (_check_volume_values rows) = true)
  /\ (df = None \/ df = Some [] ->
      validate_dataframe df = (false, [(ERROR, CannotValidate)])).
Proof.
  split; [|split].
  - destruct df as [[|r rest]|]; cbn [validate_dataframe is_empty].
    + split; [discriminate|]. intros (rows & [= <-] & Hne & _). congruence.
    + set (rows := r :: rest).
      assert (Hrun : fst (run validations rows) = true <->
                     NoDup (map timestamp rows) /\ NoDup (map datetime rows)
                     /\ (forall r, In r rows -> no_negative_price r)
                     /\ Sorted Z.le (map timestamp rows)).
      { rewrite run_passes. cbn [forallb validations fst snd].
        rewrite !andb_true_iff.
        rewrite _check_duplicate_timestamps_passes, _check_duplicate_datetime_passes,
          _check_negative_prices_passes, _check_timestamp_ordering_passes.
        pose proof (_check_null_values_passes rows).
        pose proof (_check_volume_values_passes rows).
        tauto. }
      destruct (run validations rows) as [ok l]. cbn [fst] in Hrun.
      destruct ok; cbn [fst].
      * split; [|reflexivity]. intros _. exists rows.
        split; [reflexivity|]. split; [discriminate|]. now apply Hrun.
      * split; [discriminate|]. intros (rows' & [= <-] & _ & H).
        now apply Hrun.
    + split; [discriminate|]. intros (rows & H & _). discriminate.
  - intros rows. split;
      [apply _check_null_values_passes | apply _check_volume_values_passes].
  - intros [->| ->]; reflexivity.
Qed.

Example validate_soft_frame :
  fst (validate_dataframe (Some Samples.soft_frame)) = true
  /\ reports_failure NullValues (snd (validate_dataframe (Some Samples.soft_frame)))
     = false
  /\ evaluated NullValues (snd (validate_dataframe (Some Samples.soft_frame))) = true.
Proof. vm_compute. repeat split. Qed.

Lemma validate_dataframe_passed_witness :
  validate_dataframe (Some []) = (false, [(ERROR, CannotValidate)])
  /\ fst (validate_dataframe (Some Samples.soft_frame)) = true.
Proof.
  split.
  - apply (proj2 (proj2 (validate_dataframe_passed (Some [])))). right. reflexivity.
  - apply (proj1 (validate_dataframe_passed (Some Samples.soft_frame))).
    exists Samples.soft_frame. split; [reflexivity|]. split; [discriminate|].
    split; [|split; [|split]].
    + repeat constructor; cbn; intuition discriminate.
    + repeat constructor; cbn; intuition discriminate.
    + intros r [<-|[<-|[]]] z; cbn; intuition (try discriminate);
        match goal with H : Some _ = Some _ |- _ => injection H as <- end; lia.
    + repeat constructor. cbn. lia.
Defined.

(** On a frame with a repeated timestamp and a negative price the
    negative-price check fires and leaves no trace in the outcome. *)
Lemma validation_stops_at_first_failure :
  Samples.bad_frame <> []
  /\ fires DuplicateTimestamps Samples.bad_frame = true
  /\ fires NegativePrices Samples.bad_frame = true
  /\ evaluated NegativePrices (snd (validate_dataframe (Some Samples.bad_frame)))
     = false
  /\ ~ reflects_every_firing_check Samples.bad_frame.
Proof.
  split; [discriminate|]. split; [reflexivity|]. split; [reflexivity|].
  split; [reflexivity|].
  intros H. specialize (H NegativePrices eq_refl). vm_compute in H. discriminate.
Qed.

(** C2, amended.  On every non-empty frame the validator runs its checks
    in the order of the list and stops at the first that fails: a check
    is evaluated exactly when no check before it fires, a failure is
    reported for exactly the first check that fires, and the result is
    [True] exactly when no check fires. *)
Theorem validate_dataframe_short_circuits (rows : list Row) (c : check) :
  rows <> [] ->
  let outcome := validate_dataframe (Some rows) in
  evaluated c (snd outcome) = negb (earlier_fires c rows)
  /\ reports_failure c (snd outcome) = fires c rows && negb (earlier_fires c rows)
  /\ fst outcome = negb (existsb (fun v => negb (fst (snd v rows))) validations).
Proof.
  intros Hne outcome. subst outcome.
  destruct rows as [|r rest]; [congruence|]. set (rows := r :: rest).
  unfold validate_dataframe, earlier_fires, fires.
  change (is_empty rows) with false. cbv iota.
  unfold validations, run.
  unfold _check_duplicate_timestamps, _check_duplicate_datetime,
    _check_null_values, _check_negative_prices, _check_volume_values,
    _check_timestamp_ordering.
  cbn [existsb fst snd rank].
  destruct (is_empty (duplicated Z.eqb timestamp rows));
    destruct (is_empty (duplicated String.eqb datetime rows));
    destruct (0 <? list_sum (map snd (null_counts rows)))%nat;
    destruct (is_empty (filter _ rows));
    destruct (is_empty (filter (fun r => le0 (volume r)) rows));
    destruct (is_monotonic_increasing (map timestamp rows));
    destruct c; (split; [|split]); reflexivity.
Qed.

Lemma validate_dataframe_short_circuits_witness :
  evaluated NegativePrices (snd (validate_dataframe (Some Samples.bad_frame)))
  = false
  /\ reports_failure DuplicateTimestamps
                     (snd (validate_dataframe (Some Samples.bad_frame))) = true.
Proof.
  split.
  - apply (proj1 (validate_dataframe_short_circuits
                    Samples.bad_frame NegativePrices ltac:(discriminate))).
  - apply (proj1 (proj2 (validate_dataframe_short_circuits
                           Samples.bad_frame DuplicateTimestamps
                           ltac:(discriminate)))).
Defined.

End ValidatorFacts.

(** ** The aggregator *)

Module AggregatorFacts.
Import MarketDataAggregator.

Lemma insert_bar_perm (r : Bar) (df : list Bar) :
  Permutation (r :: df) (insert_bar r df).
Proof.
  induction df as [|r' rest IH]; cbn; [reflexivity|].
  destruct (index r <=? index r'); [reflexivity|].
  rewrite perm_swap. now apply perm_skip.
Qed.

Lemma sort_index_perm (df : list Bar) : Permutation df (sort_index df).
Proof.
  induction df as [|r rest IH]; cbn; [reflexivity|].
  rewrite <- insert_bar_perm. now apply perm_skip.
Qed.

Lemma insert_bar_sorted (r : Bar) (df : list Bar) :
  StronglySorted idx_le df -> StronglySorted idx_le (insert_bar r df).
Proof.
  induction df as [|r' rest IH]; intros Hs; cbn.
  - repeat constructor.
  - apply StronglySorted_inv in Hs. destruct Hs as [Hrest Hall].
    destruct (Z.leb_spec (index r) (index r')) as [Hle|Hgt].
    + constructor; [now constructor|].
      constructor; [exact Hle|].
      eapply Forall_impl; [|exact Hall]. unfold idx_le. intros; lia.
    + constructor; [now apply IH|].
      apply Forall_forall. intros x Hx.
      eapply Permutation_in in Hx; [|apply Permutation_sym, insert_bar_perm].
      destruct Hx as [<-|Hx]; [unfold idx_le; lia|].
      rewrite Forall_forall in Hall. now apply Hall.
Qed.

Lemma sort_index_sorted (df : list Bar) : StronglySorted idx_le (sort_index df).
Proof.
  induction df as [|r rest IH]; cbn; [constructor | now apply insert_bar_sorted].
Qed.

(** A frame already in index order is left as it is. *)
Lemma sort_index_fixed (df : list Bar) :
  StronglySorted idx_le df -> sort_index df = df.
Proof.
  induction df as [|r rest IH]; intros Hs; cbn; [reflexivity|].
  apply StronglySorted_inv in Hs. destruct Hs as [Hrest Hall].
  rewrite (IH Hrest). destruct rest as [|r' rest']; [reflexivity|].
  cbn. apply Forall_inv in Hall. unfold idx_le in Hall.
  destruct (Z.leb_spec (index r) (index r')); [reflexivity | lia].
Qed.

Lemma bins_between_In (lo hi k : Z) :
  In k (bins_between lo hi) <-> lo <= k <= hi.
Proof.
  unfold bins_between. rewrite in_map_iff. split.
  - intros [i [<- Hi]]. apply in_seq in Hi. lia.
  - intros H. exists (Z.to_nat (k - lo)). split; [lia|]. apply in_seq. lia.
Qed.

Lemma bins_between_increasing (lo hi : Z) :
  StronglySorted Z.lt (bins_between lo hi).
Proof.
  unfold bins_between. generalize (Z.to_nat (hi - lo + 1)) as n.
  generalize 0%nat as s. intros s n. revert s.
  induction n as [|n IH]; intros s; cbn; constructor; [apply IH|].
  apply Forall_forall. intros k Hk. apply in_map_iff in Hk.
  destruct Hk as [i [<- Hi]]. apply in_seq in Hi. lia.
Qed.

(** With bins that divide the day, the bin counted from midnight of the
    first day is the wall-clock bucket. *)
Lemma bin_of_bucket (origin freq t k : Z) :
  0 < freq -> (freq | 86400) -> (86400 | origin) ->
  bin_of origin freq t = k <-> t / freq * freq = origin + k * freq.
Proof.
  intros Hf Hd Ho. unfold bin_of.
  destruct (Z.divide_trans _ _ _ Hd Ho) as [m ->].
  replace (t - m * freq) with (t + (- m) * freq) by lia.
  rewrite Z.div_add by lia. nia.
Qed.

Lemma normalize_divides (t : Z) : (86400 | t - t mod 86400).
Proof.
  exists (t / 86400). pose proof (Z.div_mod t 86400 ltac:(lia)). lia.
Qed.


Lemma bucket_In (freq edge : Z) (bars : list Bar) (r : Bar) :
  In r (bucket freq edge bars) <-> In r bars /\ bucket_start freq r = edge.
Proof. unfold bucket. now rewrite filter_In, Z.eqb_eq. Qed.





(** [dropna] removes exactly the bins that hold no bar. *)
Lemma dropna_agg (bins : list (Z * list Bar)) (o : Aggregated) :
  In o (dropna (map agg bins))
  <-> exists edge g, In (edge, g) bins /\ g <> [] /\ o = agg (edge, g).
Proof.
  unfold dropna. rewrite filter_In, in_map_iff. split.
  - intros [[[edge g] [<- Hin]] Hna]. exists edge, g.
    split; [exact Hin|]. split; [|reflexivity].
    intros ->. cbn in Hna. discriminate.
  - intros (edge & g & Hin & Hne & ->). split.
    + exists (edge, g). split; [reflexivity | exact Hin].
    + destruct g as [|first rest]; [congruence | reflexivity].
Qed.

Lemma sorted_last (l : list Bar) (d r : Bar) :
  StronglySorted idx_le l -> In r l -> index r <= index (last l d).
Proof.
  revert r. induction l as [|a l IH]; intros r Hs Hr; [destruct Hr|].
  apply StronglySorted_inv in Hs. destruct Hs as [Hrest Hall].
  destruct l as [|b l'].
  - destruct Hr as [<-|[]]. cbn. lia.
  - change (last (a :: b :: l') d) with (last (b :: l') d).
    destruct Hr as [<-|Hr]; [|now apply IH].
    specialize (IH b Hrest (or_introl eq_refl)).
    apply Forall_inv in Hall. unfold idx_le in Hall. lia.
Qed.

Lemma sorted_first_last (first : Bar) (rest : list Bar) (r : Bar) :
  StronglySorted idx_le (first :: rest) -> In r (first :: rest) ->
  index first <= index r <= index (last (first :: rest) first).
Proof.
  intros Hs Hr. split; [|now apply sorted_last].
  apply StronglySorted_inv in Hs. destruct Hs as [_ Hall].
  destruct Hr as [<-|Hr]; [lia|].
  rewrite Forall_forall in Hall. now apply Hall.
Qed.

Section Bins.
Variable freq : Z.
Hypothesis freq_pos : 0 < freq.
Hypothesis freq_divides_day : (freq | 86400).

(** The bins of [resample] are the wall-clock buckets between the
    first and the last row. *)
Lemma resample_bins (df : list Bar) (edge : Z) (g : list Bar) :
  In (edge, g) (resample freq df) ->
  g = bucket freq edge (sort_index df).
Proof.
  unfold resample. destruct (sort_index df) as [|first rest] eqn:E; [intros []|].
  rewrite in_map_iff. intros [k [Heq _]].
  apply pair_equal_spec in Heq. destruct Heq as [<- <-].
  unfold bucket. apply filter_ext. intros r.
  set (origin := index first - index first mod 86400).
  pose proof (bin_of_bucket origin freq (index r) k freq_pos freq_divides_day
                            (normalize_divides (index first))) as Hb.
  unfold bucket_start.
  destruct (Z.eqb_spec (bin_of origin freq (index r)) k) as [H|H];
    destruct (Z.eqb_spec (index r / freq * freq) (origin + k * freq)) as [H'|H'];
    tauto.
Qed.

(** Every bucket that holds a row is among the bins. *)
Lemma resample_covers (df : list Bar) (r : Bar) :
  In r (sort_index df) ->
  In (bucket_start freq r, bucket freq (bucket_start freq r) (sort_index df))
     (resample freq df).
Proof.
  intros Hr.
  assert (Hb : forall g, In (bucket_start freq r, g) (resample freq df) ->
                         In (bucket_start freq r,
                             bucket freq (bucket_start freq r) (sort_index df))
                            (resample freq df)).
  { intros g Hg. now rewrite <- (resample_bins _ _ _ Hg). }
  pose proof (sort_index_sorted df) as Hs.
  unfold resample in *. destruct (sort_index df) as [|first rest] eqn:E; [destruct Hr|].
  set (origin := index first - index first mod 86400) in *.
  set (k := bin_of origin freq (index r)).
  apply (Hb (filter (fun r' => bin_of origin freq (index r') =? k) (first :: rest))).
  apply in_map_iff. exists k. split.
  - f_equal. symmetry.
    apply (bin_of_bucket origin freq (index r) k freq_pos freq_divides_day
                         (normalize_divides (index first))).
    reflexivity.
  - apply bins_between_In.
    destruct (sorted_first_last first rest r Hs Hr) as [Hlo Hhi].
    unfold k, bin_of. split; apply Z.div_le_mono; lia.
Qed.

Lemma resample_edges_increasing (df : list Bar) :
  StronglySorted Z.lt (map fst (resample freq df)).
Proof.
  unfold resample. destruct (sort_index df) as [|first rest]; [constructor|].
  rewrite map_map. cbn [fst].
  generalize (index first - index first mod 86400) as origin. intros origin.
  generalize (bins_between_increasing
                (bin_of origin freq (index first))
                (bin_of origin freq (index (last (first :: rest) first)))).
  generalize (bins_between (bin_of origin freq (index first))
                           (bin_of origin freq (index (last (first :: rest) first)))).
  intros ks Hks. induction Hks as [|k ks Hs IH Hall]; cbn; constructor; [exact IH|].
  apply Forall_forall. intros e He. apply in_map_iff in He.
  destruct He as [k' [<- Hk']]. rewrite Forall_forall in Hall.
  specialize (Hall k' Hk'). nia.
Qed.

(** The output holds one bar for each bucket of [kept] that holds a
    row, and nothing else. *)
Lemma aggregate_In (df : list Bar) (o : Aggregated) :
  In o (aggregate freq df)
  <-> exists edge, bucket freq edge (kept df) <> []
                   /\ o = agg (edge, bucket freq edge (kept df)).
Proof.
  unfold aggregate, kept. rewrite dropna_agg. split.
  - intros (edge & g & Hin & Hne & ->). exists edge.
    rewrite <- (resample_bins _ _ _ Hin). tauto.
  - intros (edge & Hne & ->). exists edge. eexists. split; [|split; [exact Hne | reflexivity]].
    destruct (bucket freq edge _) as [|r g] eqn:E; [congruence|].
    assert (Hr : In r (bucket freq edge (sort_index (filter in_market_hours df))))
      by (rewrite E; now left).
    apply bucket_In in Hr. destruct Hr as [Hr <-]. rewrite <- E.
    now apply resample_covers.
Qed.

Lemma aggregate_increasing (df : list Bar) :
  StronglySorted (fun a b => a_datetime a < a_datetime b) (aggregate freq df).
Proof.
  unfold aggregate.
  generalize (resample_edges_increasing (filter in_market_hours df)).
  generalize (resample freq (filter in_market_hours df)). intros bins.
  induction bins as [|[edge g] bins IH]; cbn [map fst]; intros Hs; [constructor|].
  apply StronglySorted_inv in Hs. destruct Hs as [Hrest Hall].
  specialize (IH Hrest). unfold dropna in *. cbn [map filter].
  destruct (notna _ && _ && _ && _); [|exact IH].
  constructor; [exact IH|].
  apply Forall_forall. intros o Ho. apply filter_In in Ho. destruct Ho as [Ho _].
  apply in_map_iff in Ho. destruct Ho as [[edge' g'] [<- Hin]].
  rewrite Forall_forall in Hall.
  specialize (Hall edge' (in_map fst _ _ Hin)).
  destruct g; exact Hall.
Qed.

End Bins.


Lemma kept_In (df : list Bar) (r : Bar) :
  In r (kept df) <-> In r df /\ in_market_hours r = true.
Proof.
  unfold kept. rewrite <- filter_In. split; intros H.
  - eapply Permutation_in; [apply Permutation_sym, sort_index_perm | exact H].
  - eapply Permutation_in; [apply sort_index_perm | exact H].
Qed.

Lemma filter_idem (f : Bar -> bool) (df : list Bar) :
  filter f (filter f df) = filter f df.
Proof.
  induction df as [|r df IH]; cbn; [reflexivity|].
  destruct (f r) eqn:E; cbn; rewrite ?E, IH; reflexivity.
Qed.

Lemma open_seconds (sod : Z) :
  0 <= sod < 86400 ->
  Civil.time_leb market_open
                 (Civil.mk_time (sod / 3600) ((sod mod 3600) / 60) (sod mod 60) 0)
  = true <-> 34200 <= sod.
Proof.
  intros Hs.
  unfold Civil.time_leb, Civil.time_gtb, Civil.time_compare, market_open.
  cbn [Civil.hour Civil.minute Civil.second Civil.microsecond].
  destruct (Z.compare_spec 9 (sod / 3600)) as [E1|E1|E1];
    destruct (Z.compare_spec 30 ((sod mod 3600) / 60)) as [E2|E2|E2];
    destruct (Z.compare_spec 0 (sod mod 60)) as [E3|E3|E3];
    cbn; (split; intros H; [try discriminate H | try reflexivity; exfalso]);
    Z.div_mod_to_equations; lia.
Qed.

Lemma close_seconds (sod : Z) :
  0 <= sod < 86400 ->
  Civil.time_ltb (Civil.mk_time (sod / 3600) ((sod mod 3600) / 60) (sod mod 60) 0)
                 market_close
  = true <-> sod < 57600.
Proof.
  intros Hs.
  unfold Civil.time_ltb, Civil.time_compare, market_close.
  cbn [Civil.hour Civil.minute Civil.second Civil.microsecond].
  destruct (Z.compare_spec (sod / 3600) 16) as [E1|E1|E1];
    destruct (Z.compare_spec ((sod mod 3600) / 60) 0) as [E2|E2|E2];
    destruct (Z.compare_spec (sod mod 60) 0) as [E3|E3|E3];
    cbn; (split; intros H; [try discriminate H | try reflexivity; exfalso]);
    Z.div_mod_to_equations; lia.
Qed.

(** Market hours in seconds of the day: from 09:30:00, before 16:00:00. *)
Lemma in_market_hours_seconds (r : Bar) :
  in_market_hours r = true <-> 34200 <= index r mod 86400 < 57600.
Proof.
  unfold in_market_hours, time_of_index. cbv zeta.
  assert (Hs : 0 <= index r mod 86400 < 86400) by (apply Z.mod_pos_bound; lia).
  rewrite andb_true_iff, (open_seconds _ Hs), (close_seconds _ Hs). tauto.
Qed.

(** A label of the mapping names a bin length that divides the day. *)
Lemma timeframe_recognised (to_timeframe alias : string) (df : list Bar) :
  timeframe_mapping to_timeframe = Some alias ->
  exists freq, offset_seconds alias = Some freq
               /\ 0 < freq /\ (freq | 86400)
               /\ aggregate_market_data to_timeframe df = Some (aggregate freq df).
Proof.
  intros H. unfold aggregate_market_data. rewrite H. cbn [Frame.get].
  revert H. unfold timeframe_mapping.
  repeat match goal with
         | |- context [if String.eqb to_timeframe ?l then _ else _] =>
             destruct (String.eqb to_timeframe l)
         end; intros [= <-]; cbn;
    (eexists; split; [reflexivity|]; split; [lia|]; split; [|reflexivity]).
  - now exists 1440.
  - now exists 480.
  - now exists 288.
  - now exists 144.
  - now exists 96.
  - now exists 48.
  - now exists 24.
  - now exists 1.
Qed.




(** C3, amended.  The aggregator re-applies the market-hours filter
    (from 09:30:00, before 16:00:00; not the early-close rules) to its
    input: the output is that of the filtered input, every bar within
    market hours falls in the bucket of an output bar, and a bar outside
    market hours falls in none. *)
Theorem aggregate_market_hours_only (to_timeframe alias : string) (df : list Bar) :
  timeframe_mapping to_timeframe = Some alias ->
  exists freq out,
    offset_seconds alias = Some freq
    /\ aggregate_market_data to_timeframe df = Some out
    /\ aggregate_market_data to_timeframe (filter in_market_hours df) = Some out
    /\ (forall r, in_market_hours r = true <-> 34200 <= index r mod 86400 < 57600)
    /\ (forall r, In r df -> in_market_hours r = true ->
          exists o, In o out /\ a_datetime o = bucket_start freq r
                    /\ In r (bucket freq (a_datetime o) (kept df)))
    /\ (forall r, In r df -> in_market_hours r = false ->
          forall o, In o out -> ~ In r (bucket freq (a_datetime o) (kept df)))
    /\ (forall o, In o out ->
          exists r, In r df /\ in_market_hours r = true
                    /\ bucket_start freq r = a_datetime o).
Proof.
  intros Hmap.
  destruct (timeframe_recognised _ _ df Hmap) as (freq & Hoff & Hpos & Hdiv & Hagg).
  destruct (timeframe_recognised _ _ (filter in_market_hours df) Hmap)
    as (freq' & Hoff' & _ & _ & Hagg').
  rewrite Hoff in Hoff'. injection Hoff' as <-.
  exists freq, (aggregate freq df).
  split; [exact Hoff|]. split; [exact Hagg|].
  split.
  { rewrite Hagg'. unfold aggregate. now rewrite filter_idem. }
  split; [apply in_market_hours_seconds|].
  split; [|split].
  - intros r Hr Hin.
    assert (Hk : In r (bucket freq (bucket_start freq r) (kept df))).
    { apply bucket_In. split; [|reflexivity]. apply kept_In. tauto. }
    exists (agg (bucket_start freq r, bucket freq (bucket_start freq r) (kept df))).
    split; [|split; [reflexivity | exact Hk]].
    apply (aggregate_In freq Hpos Hdiv). exists (bucket_start freq r).
    split; [|reflexivity]. intros E. rewrite E in Hk. destruct Hk.
  - intros r Hr Hout o Ho Hb. apply bucket_In in Hb. destruct Hb as [Hb _].
    apply kept_In in Hb. destruct Hb as [_ Hb]. congruence.
  - intros o Ho. apply (aggregate_In freq Hpos Hdiv) in Ho.
    destruct Ho as (edge & Hne & ->).
    destruct (bucket freq edge (kept df)) as [|r g] eqn:E; [congruence|].
    assert (Hr : In r (bucket freq edge (kept df))) by (rewrite E; now left).
    apply bucket_In in Hr. destruct Hr as [Hr Hs]. apply kept_In in Hr.
    exists r. cbn [agg a_datetime]. tauto.
Qed.

Lemma aggregate_market_hours_only_witness :
  exists out,
    aggregate_market_data "3m" (Samples.bar_4pm :: Samples.minute_bars) = Some out
    /\ aggregate_market_data "3m" Samples.minute_bars = Some out
    /\ forall o, In o out ->
         ~ In Samples.bar_4pm
              (bucket 180 (a_datetime o) (kept (Samples.bar_4pm :: Samples.minute_bars))).
Proof.
  destruct (aggregate_market_hours_only
              "3m" "3min" (Samples.bar_4pm :: Samples.minute_bars) eq_refl)
    as (freq & out & Hoff & Hagg & Hfil & _ & _ & Hout & _).
  injection Hoff as <-.
  exists out. split; [exact Hagg|]. split; [exact Hfil|].
  intros o Ho. apply (Hout Samples.bar_4pm); [now left | reflexivity | exact Ho].
Defined.

(** The bar stamped 16:00:00, which the session filter of the processor
    lets through, is dropped by the aggregator. *)
Lemma closing_bar_is_dropped :
  in_market_hours Samples.bar_4pm = false
  /\ aggregate_market_data "3m" [Samples.bar_4pm] = Some []
  /\ ~ assigns_every_bar "3m" [Samples.bar_4pm].
Proof.
  split; [reflexivity|]. split; [reflexivity|].
  intros H.
  destruct (H 180 [] eq_refl eq_refl Samples.bar_4pm (or_introl eq_refl))
    as (o & [] & _).
Qed.

End AggregatorFacts.

(** ** The run of the chunking loop *)

Module FetchTraceFacts.
Import Frame SchwabMarketDataClient FetchTrace.

Lemma next_start_exact (cur end_dt : Z) :
  cur <= end_dt ->
  next_start cur end_dt (period_at end_dt cur)
  = cur + timedelta (period_at end_dt cur).
Proof.
  intros H. unfold next_start, period_at.
  rewrite (FetcherFacts.clamp_inert cur end_dt H).
  unfold timedelta. lia.
Qed.

(** A turn of the loop takes exactly its period off the days left. *)
Lemma days_remaining_step (cur end_dt : Z) :
  days_remaining (cur + timedelta (period_at end_dt cur)) end_dt
  = days_remaining cur end_dt - period_at end_dt cur.
Proof.
  unfold days_remaining, days, timedelta.
  replace (end_dt - (cur + period_at end_dt cur * DAY))
    with ((end_dt - cur) + (- period_at end_dt cur) * DAY) by lia.
  rewrite Z.div_add by (unfold DAY; lia). lia.
Qed.

Lemma period_at_pos (cur end_dt : Z) :
  cur <= end_dt -> 1 <= period_at end_dt cur <= days_remaining cur end_dt.
Proof.
  intros H. pose proof (FetcherFacts.days_remaining_pos _ _ H) as Hd.
  split.
  - now apply PeriodOptimizerFacts.get_optimal_period_pos.
  - now apply PeriodOptimizerFacts.get_optimal_period_fits.
Qed.


(** X7.  The clamp of the loop never applies: while the loop runs, the
    period chosen ends on or before [end_dt]. *)
Theorem clamp_never_applies (cur end_dt : Z) :
  cur <= end_dt ->
  cur + timedelta (period_at end_dt cur - 1) <= end_dt
  /\ clamp (cur + timedelta (period_at end_dt cur - 1)) end_dt
     = cur + timedelta (period_at end_dt cur - 1).
Proof.
  intros H.
  pose proof (FetcherFacts.clamp_inert cur end_dt H) as Hc. cbv zeta in Hc.
  fold (period_at end_dt cur) in Hc. split; [|exact Hc].
  unfold clamp in Hc.
  destruct (Z.gtb_spec (cur + timedelta (period_at end_dt cur - 1)) end_dt) as [Hgt|];
    [|assumption].
  unfold timedelta, DAY in *. pose proof (period_at_pos cur end_dt H). lia.
Qed.

(** The optimizer never picks a larger period for fewer days. *)
Lemma get_optimal_period_monotone (d d' : Z) :
  d <= d' ->
  PeriodOptimizer.get_optimal_period d <= PeriodOptimizer.get_optimal_period d'.
Proof.
  intros H. unfold PeriodOptimizer.get_optimal_period. cbn.
  repeat match goal with
         | |- context [if ?a >=? ?b then _ else _] => destruct (Z.geb_spec a b)
         end; lia.
Qed.

Lemma get_optimal_period_valid (d : Z) :
  1 <= d -> In (PeriodOptimizer.get_optimal_period d) PeriodOptimizer.VALID_PERIODS.
Proof.
  intros H.
  apply (PeriodOptimizerFacts.first_fitting_largest
           PeriodOptimizer.VALID_PERIODS d
           PeriodOptimizerFacts.VALID_PERIODS_descending).
  exists 1. split; [cbn; tauto | lia].
Qed.



Section Run.
Variable api_config : APIConfig.
Variables (tok sym : string) (iv end_dt : Z).

Local Abbreviation run := (Run api_config tok sym iv end_dt).

Lemma run_contiguous cur tail res :
  run cur tail res -> contiguous_from end_dt cur (map fst tail).
Proof.
  induction 1 as [cur Hgt|cur response Hle Ha|cur response rest res Hle Ha Hrun IH];
    cbn [map fst contiguous_from params_of q_startDate q_endDate q_period];
    [exact I| |].
  - pose proof (period_at_pos cur end_dt Hle) as [Hp _].
    pose proof (FetcherFacts.clamp_inert cur end_dt Hle) as Hc. cbv zeta in Hc.
    fold (period_at end_dt cur) in Hc. unfold clamp in Hc.
    destruct (Z.gtb_spec (cur + timedelta (period_at end_dt cur - 1)) end_dt);
      [unfold timedelta, DAY in *; lia|].
    repeat split; try assumption; reflexivity.
  - pose proof (period_at_pos cur end_dt Hle) as [Hp _].
    pose proof (FetcherFacts.clamp_inert cur end_dt Hle) as Hc. cbv zeta in Hc.
    fold (period_at end_dt cur) in Hc. unfold clamp in Hc.
    destruct (Z.gtb_spec (cur + timedelta (period_at end_dt cur - 1)) end_dt);
      [unfold timedelta, DAY in *; lia|].
    repeat split; try assumption; reflexivity.
Qed.

Lemma run_candles cur tail res :
  run cur tail res ->
  res = if forallb answered (map snd tail)
        then Some (List.concat (map candles_of (map snd tail))) else None.
Proof.
  induction 1 as [cur Hgt|cur response Hle Ha|cur response rest res Hle Ha Hrun IH];
    cbn [map snd forallb List.concat].
  - reflexivity.
  - now rewrite Ha.
  - rewrite Ha, IH. cbn [andb].
    destruct (forallb answered (map snd rest)); reflexivity.
Qed.


Lemma run_periods_bounded cur tail res :
  run cur tail res ->
  Forall (fun p => In p PeriodOptimizer.VALID_PERIODS /\ p <= period_at end_dt cur)
         (periods_of tail).
Proof.
  induction 1 as [cur Hgt|cur response Hle Ha|cur response rest res Hle Ha Hrun IH];
    cbn [map snd fst periods_of params_of q_period].
  - constructor.
  - constructor; [|constructor]. split; [|lia].
    apply get_optimal_period_valid. now apply FetcherFacts.days_remaining_pos.
  - constructor.
    + split; [|lia].
      apply get_optimal_period_valid. now apply FetcherFacts.days_remaining_pos.
    + eapply Forall_impl; [|exact IH]. cbn beta. intros p [Hin Hp].
      split; [exact Hin|].
      assert (period_at end_dt (cur + timedelta (period_at end_dt cur))
              <= period_at end_dt cur); [|lia].
      unfold period_at at 1 3. apply get_optimal_period_monotone.
      rewrite days_remaining_step.
      pose proof (period_at_pos cur end_dt Hle). lia.
Qed.

Lemma run_periods_descend cur tail res :
  run cur tail res -> StronglySorted Z.ge (periods_of tail).
Proof.
  induction 1 as [cur Hgt|cur response Hle Ha|cur response rest res Hle Ha Hrun IH];
    cbn [map snd fst periods_of params_of q_period].
  - constructor.
  - repeat constructor.
  - constructor; [exact IH|].
    pose proof (run_periods_bounded _ _ _ Hrun) as Hb.
    eapply Forall_impl; [|exact Hb]. cbn beta. intros p [_ Hp].
    assert (period_at end_dt (cur + timedelta (period_at end_dt cur))
            <= period_at end_dt cur); [|lia].
    unfold period_at at 1 3. apply get_optimal_period_monotone.
    rewrite days_remaining_step.
    pose proof (period_at_pos cur end_dt Hle). lia.
Qed.


Lemma run_unanswered_last cur tail res :
  run cur tail res -> forallb answered (map snd (removelast tail)) = true.
Proof.
  induction 1 as [cur Hgt|cur response Hle Ha|cur response rest res Hle Ha Hrun IH].
  - reflexivity.
  - reflexivity.
  - destruct rest as [|x rest']; [reflexivity|].
    change (removelast (?a :: x :: rest')) with (a :: removelast (x :: rest')).
    cbn [map snd forallb]. now rewrite Ha, IH.
Qed.

End Run.

Section Loop.
Variable World : Type.
Variable requests_get : Request -> World -> Response * World.
Variable api_config : APIConfig.

Local Abbreviation loop := (fetch_loop World requests_get api_config).
Local Abbreviation fetch := (_fetch_period World requests_get api_config).

Lemma _fetch_period_result tok sym s e p iv w :
  exists response w',
    fetch tok sym s e p iv w
    = (if answered response then Some (candles_of response) else None,
       (params_of api_config tok sym s e p iv, response), w').
Proof.
  unfold _fetch_period, params_of.
  destruct (requests_get _ w) as [response w']. exists response, w'.
  destruct response as [|code [|[[|c cs]|]]]; cbn; try reflexivity;
    destruct (code =? 200); reflexivity.
Qed.

(** Every run of the loop is a [Run]. *)
Lemma fetch_loop_run tok sym iv end_dt all done cur w :
  exists tail res,
    Run api_config tok sym iv end_dt cur tail res
    /\ snd (fst (loop tok sym iv end_dt all done cur w)) = done ++ tail
    /\ fst (fst (loop tok sym iv end_dt all done cur w))
       = match res with Some c => all ++ c | None => [] end.
Proof.
  revert all done cur w.
  apply (FetcherFacts.fetch_loop_ind World requests_get api_config
           (fun all done cur w r =>
              exists tail res,
                Run api_config tok sym iv end_dt cur tail res
                /\ snd (fst r) = done ++ tail
                /\ fst (fst r) = match res with Some c => all ++ c | None => [] end)).
  - intros all done cur w Hgt. exists [], (Some []).
    split; [now constructor|]. cbn. now rewrite !app_nil_r.
  - intros all done cur w x w' Hle period Ef.
    pose proof (FetcherFacts.clamp_inert cur end_dt Hle) as Hc.
    cbv zeta in Hc. fold period in Hc. rewrite Hc in Ef. clear Hc.
    destruct (_fetch_period_result tok sym cur (cur + timedelta (period - 1))
                                   period iv w) as (response & w1 & E).
    rewrite E in Ef.
    destruct (answered response) eqn:Ea; [discriminate|].
    injection Ef as <- _.
    exists [(params_of api_config tok sym cur (cur + timedelta (period - 1))
                       period iv, response)], None.
    split; [|split; reflexivity]. now apply Run_cut.
  - intros all done cur w candles x w' Hle period Ef (tail & res & Hrun & Hxs & Hc).
    pose proof (FetcherFacts.clamp_inert cur end_dt Hle) as Hci.
    cbv zeta in Hci. fold period in Hci. rewrite Hci in Ef. clear Hci.
    destruct (_fetch_period_result tok sym cur (cur + timedelta (period - 1))
                                   period iv w) as (response & w1 & E).
    rewrite E in Ef.
    destruct (answered response) eqn:Ea; [|discriminate].
    injection Ef as <- <- _.
    exists ((params_of api_config tok sym cur (cur + timedelta (period - 1))
                       period iv, response) :: tail),
      (option_map (app (candles_of response)) res).
    split; [|split].
    + apply Run_next; [exact Hle | exact Ea |].
      fold (period_at end_dt cur) in *.
      now rewrite <- (next_start_exact cur end_dt Hle).
    + rewrite Hxs, <- app_assoc. reflexivity.
    + rewrite Hc. destruct res; cbn; [now rewrite app_assoc | reflexivity].
Qed.

Local Abbreviation fetch_all := (_fetch_all_periods World requests_get api_config).

Lemma _fetch_all_periods_run tok sym start_dt end_dt iv w :
  exists res,
    Run api_config tok sym iv end_dt start_dt
        (snd (fst (fetch_all tok sym start_dt end_dt iv w))) res
    /\ fst (fst (fetch_all tok sym start_dt end_dt iv w))
       = match res with Some c => c | None => [] end.
Proof.
  unfold _fetch_all_periods.
  destruct (fetch_loop_run tok sym iv end_dt [] [] start_dt w)
    as (tail & res & Hrun & Hxs & Hc).
  exists res. cbn [app] in *. rewrite Hxs, Hc. split; [exact Hrun|].
  now destruct res.
Qed.

(** X1.  The windows requested follow one another without gap or overlap:
    the first starts at [start_dt], each spans its period and ends
    within the range, and the next starts the day after. *)
Theorem fetch_windows_contiguous tok sym start_dt end_dt iv w :
  contiguous_from end_dt start_dt
                  (map fst (snd (fst (fetch_all tok sym start_dt end_dt iv w)))).
Proof.
  destruct (_fetch_all_periods_run tok sym start_dt end_dt iv w) as (res & Hrun & _).
  eapply run_contiguous. exact Hrun.
Qed.


(** X3.  The periods requested are rungs of the ladder and never grow from
    one request to the next. *)
Theorem fetch_periods_descend tok sym start_dt end_dt iv w :
  StronglySorted Z.ge
                 (periods_of (snd (fst (fetch_all tok sym start_dt end_dt iv w))))
  /\ Forall (fun p => In p PeriodOptimizer.VALID_PERIODS)
            (periods_of (snd (fst (fetch_all tok sym start_dt end_dt iv w)))).
Proof.
  destruct (_fetch_all_periods_run tok sym start_dt end_dt iv w) as (res & Hrun & _).
  split.
  - eapply run_periods_descend. exact Hrun.
  - eapply Forall_impl; [|eapply run_periods_bounded; exact Hrun].
    cbn beta. tauto.
Qed.


(** X5.  No request is sent after one that was not answered: every exchange
    but the last was answered with status 200 and a body that parses. *)
Theorem fetch_stops_at_first_unanswered tok sym start_dt end_dt iv w :
  forallb answered
          (map snd (removelast (snd (fst (fetch_all tok sym start_dt end_dt iv w)))))
  = true.
Proof.
  destruct (_fetch_all_periods_run tok sym start_dt end_dt iv w) as (res & Hrun & _).
  eapply run_unanswered_last. exact Hrun.
Qed.


End Loop.

End FetchTraceFacts.

(** ** The client around the loop *)

Module HistoryFacts.
Import Frame SchwabMarketDataClient FetchTrace.

Section Client.
Variable World : Type.
Variable requests_get : Request -> World -> Response * World.
Variable get_valid_access_token : World -> option string * World.
Variable sort_values : list Row -> list Row.
Variable api_config : APIConfig.
Variable processor : MarketDataProcessor.t.

Local Abbreviation price_history :=
  (get_price_history World requests_get get_valid_access_token sort_values
                     api_config processor).
Local Abbreviation token := (_get_valid_access_token World get_valid_access_token).
Local Abbreviation validate := (_validate_inputs World get_valid_access_token).

(** X8.  An interval outside 1, 5, 10, 15, 30 or an empty symbol ends the
    call at once: the result is [None], no request is sent, and the
    credential provider is not asked (the world is left as it was). *)
Theorem invalid_inputs_touch_nothing self symbol start_dt end_dt time_interval w :
  ~ In time_interval [1; 5; 10; 15; 30] \/ symbol = ""%string ->
  get_price_history World requests_get get_valid_access_token sort_values
                    api_config processor
                    self symbol start_dt end_dt time_interval w
  = (None, [], w).
Proof.
  intros H. unfold get_price_history, _validate_inputs.
  destruct (existsb (Z.eqb time_interval) valid_intervals) eqn:E; cbn [negb];
    [|reflexivity].
  destruct H as [H| ->]; [|reflexivity].
  exfalso. apply H. apply existsb_exists in E. destruct E as [x [Hx E]].
  apply Z.eqb_eq in E. now subst.
Qed.

(** X9.  A token the client holds is reused: the provider is asked only
    when there is none, and a token it hands out is the one every later
    call returns, with no further call to the provider. *)
Theorem token_is_fetched_once self w :
  (truthy (access_token self) = true ->
   token self w = (access_token self, self, w))
  /\ (truthy (fst (fst (token self w))) = true ->
      forall w', token (snd (fst (token self w))) w'
                 = (fst (fst (token self w)), snd (fst (token self w)), w')).
Proof.
  split.
  - intros H. unfold _get_valid_access_token. now rewrite H.
  - unfold _get_valid_access_token.
    destruct (truthy (access_token self)) eqn:E; cbn [fst snd].
    + intros _ w'. now rewrite E.
    + destruct (get_valid_access_token w) as [tok w1].
      destruct (truthy tok) eqn:Et; cbn [negb fst snd]; [|discriminate].
      intros _ w'. cbn [access_token]. now rewrite Et.
Qed.

(** X10.  Without a token no request is sent: when the client holds none and
    the provider hands out none, the result is [None]. *)
Theorem no_token_no_request self symbol start_dt end_dt time_interval w :
  truthy (access_token self) = false ->
  truthy (fst (get_valid_access_token w)) = false ->
  fst (price_history self symbol start_dt end_dt time_interval w) = (None, []).
Proof.
  intros Hs Hp. unfold get_price_history, _validate_inputs, _get_valid_access_token.
  destruct (negb (existsb _ _)); [reflexivity|].
  destruct (String.eqb symbol ""); [reflexivity|].
  rewrite Hs. destruct (get_valid_access_token w) as [tok w1]. cbn [fst] in Hp.
  rewrite Hp. reflexivity.
Qed.

(** The two ways out of [get_price_history]. *)
Lemma price_history_cases self symbol start_dt end_dt time_interval w :
  (fst (fst (price_history self symbol start_dt end_dt time_interval w)) = None
   /\ (snd (fst (price_history self symbol start_dt end_dt time_interval w)) = []
       \/ forallb answered
                  (map snd (snd (fst (price_history self symbol start_dt end_dt
                                                    time_interval w)))) = false
       \/ List.concat
            (map candles_of
                 (map snd (snd (fst (price_history self symbol start_dt end_dt
                                                   time_interval w))))) = []))
  \/ (In time_interval [1; 5; 10; 15; 30]
      /\ symbol <> ""%string
      /\ forallb answered
                 (map snd (snd (fst (price_history self symbol start_dt end_dt
                                                   time_interval w)))) = true
      /\ List.concat
           (map candles_of
                (map snd (snd (fst (price_history self symbol start_dt end_dt
                                                  time_interval w))))) <> []
      /\ fst (fst (price_history self symbol start_dt end_dt time_interval w))
         = Some (MarketDataProcessor.process_candles
                   sort_values processor
                   (List.concat
                      (map candles_of
                           (map snd (snd (fst (price_history self symbol start_dt
                                                             end_dt time_interval
                                                             w)))))))).
Proof.
  unfold get_price_history, _validate_inputs.
  destruct (existsb (Z.eqb time_interval) valid_intervals) eqn:Ei; cbn [negb];
    [|left; split; [reflexivity | now left]].
  destruct (String.eqb_spec symbol "") as [->|Hsym];
    [left; split; [reflexivity | now left]|].
  destruct (token self w) as [[tok self'] w1].
  destruct (truthy tok); cbn [negb]; [|left; split; [reflexivity | now left]].
  destruct (FetchTraceFacts._fetch_all_periods_run
              World requests_get api_config
              (get (access_token self') ""%string) symbol start_dt end_dt
              time_interval w1) as (res & Hrun & Hc).
  pose proof (FetchTraceFacts.run_candles _ _ _ _ _ _ _ _ Hrun) as Hres.
  destruct (_fetch_all_periods _ _ _ _ _ _ _ _ _) as [[all_candles xs] w2].
  cbn [fst snd] in Hc, Hres.
  destruct (forallb answered (map snd xs)) eqn:Ea; subst res all_candles.
  - destruct (List.concat (map candles_of (map snd xs))) as [|c cs] eqn:Ec.
    + left. cbn [fst snd]. rewrite Ea, Ec. split; [reflexivity | now right; right].
    + right. cbn [fst snd]. rewrite Ea, Ec.
      split.
      { apply existsb_exists in Ei. destruct Ei as [x [Hx E]].
        apply Z.eqb_eq in E. now subst. }
      split; [exact Hsym|]. split; [reflexivity|]. split; [discriminate | reflexivity].
  - left. cbn [fst snd]. rewrite Ea. split; [reflexivity | now right; left].
Qed.

(** X11.  What [get_price_history] returns is the cleaning of every candle
    fetched: a frame is returned only when the inputs are valid, every
    request was answered and some candle came back, and it is then
    [process_candles] of the candles of all responses in request
    order. *)
Theorem price_history_is_cleaned_fetch self symbol start_dt end_dt time_interval w rows :
  fst (fst (price_history self symbol start_dt end_dt time_interval w)) = Some rows ->
  let xs := snd (fst (price_history self symbol start_dt end_dt time_interval w)) in
  In time_interval [1; 5; 10; 15; 30]
  /\ symbol <> ""%string
  /\ forallb answered (map snd xs) = true
  /\ List.concat (map candles_of (map snd xs)) <> []
  /\ rows = MarketDataProcessor.process_candles
              sort_values processor (List.concat (map candles_of (map snd xs))).
Proof.
  intros Hrows xs. subst xs.
  destruct (price_history_cases self symbol start_dt end_dt time_interval w)
    as [[Hnone _]|(Hi & Hs & Ha & Hne & Hsome)].
  - rewrite Hnone in Hrows. discriminate.
  - rewrite Hsome in Hrows. injection Hrows as <-. tauto.
Qed.

(** X12.  A fetch in which every request is answered but no candle comes back
    returns [None], as a failed fetch does. *)
Theorem empty_fetch_returns_none self symbol start_dt end_dt time_interval w :
  List.concat
    (map candles_of
         (map snd (snd (fst (price_history self symbol start_dt end_dt
                                           time_interval w))))) = [] ->
  fst (fst (price_history self symbol start_dt end_dt time_interval w)) = None.
Proof.
  intros Hnil.
  destruct (price_history_cases self symbol start_dt end_dt time_interval w)
    as [[Hnone _]|(_ & _ & _ & Hne & _)]; [exact Hnone | contradiction].
Qed.

End Client.

End HistoryFacts.

(** ** The session filter on the millisecond line, and the fourth Friday *)

Module CalendarFacts.
Import Frame MarketDataProcessor LocalTime.

Lemma days_from_civil_linear (y m d : Z) :
  Civil.days_from_civil y m d = Civil.days_from_civil y m 0 + d.
Proof. unfold Civil.days_from_civil. cbv zeta. lia. Qed.

Lemma weekday_shift (y m d : Z) :
  Civil.weekday y m d = (Civil.weekday y m 0 + d) mod 7.
Proof.
  unfold Civil.weekday. rewrite (days_from_civil_linear y m d).
  rewrite Z.add_mod_idemp_l by lia. f_equal. lia.
Qed.

Lemma days_in_month_cases (y m : Z) :
  Civil.days_in_month y m = 28 \/ Civil.days_in_month y m = 29
  \/ Civil.days_in_month y m = 30 \/ Civil.days_in_month y m = 31.
Proof.
  unfold Civil.days_in_month.
  destruct (m =? 2); [destruct (Civil.isleap y); tauto|].
  destruct (_ || _); tauto.
Qed.

Ltac list_fridays :=
  match goal with
  | |- context [filter ?f (range1 ?n)] =>
      let l := eval vm_compute in (filter f (range1 n)) in
      change (filter f (range1 n)) with l
  end.

(** X13.  Every month has at least four Fridays, and the fourth Friday is the
    Friday among the days 22 to 28. *)
Theorem fourth_friday_is_22_to_28 (date : Civil.datetime) :
  4 <= Z.of_nat (List.length (fridays_of (Civil.year date) (Civil.month date)))
  /\ (_is_fourth_friday date = true
      <-> Civil.weekday (Civil.year date) (Civil.month date) (Civil.day date) = 4
          /\ 22 <= Civil.day date <= 28).
Proof.
  unfold _is_fourth_friday, fridays_of.
  set (y := Civil.year date). set (m := Civil.month date). set (d := Civil.day date).
  rewrite (filter_ext _ (fun day => (Civil.weekday y m 0 + day) mod 7 =? 4))
    by (intros day; now rewrite (weekday_shift y m day)).
  rewrite (weekday_shift y m d).
  assert (Hw : 0 <= Civil.weekday y m 0 < 7)
    by (unfold Civil.weekday; apply Z.mod_pos_bound; lia).
  generalize dependent (Civil.weekday y m 0). intros w Hw.
  clearbody y m d. clear date.
  assert (Hcases : w = 0 \/ w = 1 \/ w = 2 \/ w = 3 \/ w = 4 \/ w = 5 \/ w = 6) by lia.
  destruct (days_in_month_cases y m) as [-> | [-> | [-> | ->]]];
    destruct Hcases as [-> | [-> | [-> | [-> | [-> | [-> | ->]]]]]];
    list_fridays; cbn [List.length nth_error];
    (split; [cbn; lia|]);
    rewrite andb_true_iff, Z.eqb_eq, Z.leb_le;
    (split; [intros [_ ->]; split; [reflexivity | lia]
            | intros [Hd Hr]; split; [cbn; lia|]; Z.div_mod_to_equations; lia]).
Qed.

(** Times of day with minutes, seconds and microseconds in range are
    ordered as their microsecond counts. *)
Lemma time_compare_us (a b : Civil.time) :
  0 <= Civil.minute a < 60 -> 0 <= Civil.second a < 60 ->
  0 <= Civil.microsecond a < 1000000 ->
  0 <= Civil.minute b < 60 -> 0 <= Civil.second b < 60 ->
  0 <= Civil.microsecond b < 1000000 ->
  Civil.time_compare a b = (to_us a ?= to_us b).
Proof.
  intros Hma Hsa Hua Hmb Hsb Hub. unfold Civil.time_compare, to_us.
  symmetry.
  destruct (Z.compare_spec (Civil.hour a) (Civil.hour b)) as [E1|E1|E1];
    [|apply Z.compare_lt_iff; nia | apply Z.compare_gt_iff; nia].
  destruct (Z.compare_spec (Civil.minute a) (Civil.minute b)) as [E2|E2|E2];
    [|apply Z.compare_lt_iff; nia | apply Z.compare_gt_iff; nia].
  destruct (Z.compare_spec (Civil.second a) (Civil.second b)) as [E3|E3|E3];
    [|apply Z.compare_lt_iff; nia | apply Z.compare_gt_iff; nia].
  rewrite E1, E2, E3.
  destruct (Z.compare_spec (Civil.microsecond a) (Civil.microsecond b)) as [E4|E4|E4];
    [rewrite E4; apply Z.compare_refl
    | apply Z.compare_lt_iff; lia | apply Z.compare_gt_iff; lia].
Qed.

Lemma time_of_fromtimestamp_ms (tz : Civil.tzinfo) (ts : Z) :
  let sod := (ts / 1000 + Civil.utcoffset tz (ts / 1000)) mod 86400 in
  Civil.time_of (Civil.fromtimestamp_ms tz ts)
  = Civil.mk_time (sod / 3600) ((sod mod 3600) / 60) (sod mod 60)
                  ((ts mod 1000) * 1000).
Proof.
  unfold Civil.fromtimestamp_ms. cbv zeta.
  destruct (Civil.civil_from_days _) as [[y m] d]. reflexivity.
Qed.

Lemma local_time_us (tz : Civil.tzinfo) (ts : Z) :
  let t := Civil.time_of (Civil.fromtimestamp_ms tz ts) in
  to_us t = local_ms_of_day tz ts * 1000
  /\ 0 <= Civil.minute t < 60 /\ 0 <= Civil.second t < 60
  /\ 0 <= Civil.microsecond t < 1000000.
Proof.
  cbv zeta. rewrite time_of_fromtimestamp_ms. cbv zeta.
  unfold to_us, local_ms_of_day. cbv zeta.
  cbn [Civil.hour Civil.minute Civil.second Civil.microsecond].
  set (sod := (ts / 1000 + Civil.utcoffset tz (ts / 1000)) mod 86400).
  assert (0 <= sod < 86400) by (apply Z.mod_pos_bound; lia).
  clearbody sod.
  repeat split; Z.div_mod_to_equations; lia.
Qed.

(** Whether a candle survives, for any configuration. *)
Lemma accepted_closed_form (self : t) (candle : Candle) :
  let dt := Civil.fromtimestamp_ms (timezone self) (get (c_datetime candle) 0) in
  accepted self candle
  = negb (Civil.time_ltb (Civil.time_of dt) (market_open self))
    && negb (Civil.time_gtb (Civil.time_of dt) (market_close self))
    && negb (early_close_day dt
             && Civil.time_gtb (Civil.time_of dt) (early_close self)).
Proof.
  intros dt. unfold accepted, _process_single_candle, early_close_day. fold dt.
  destruct (Civil.time_ltb _ _), (Civil.time_gtb _ (market_close self)),
    (Civil.time_gtb _ (early_close self)),
    (Civil.month dt =? 7), (Civil.day dt =? 3),
    (Civil.month dt =? 11), (_is_fourth_friday dt),
    (Civil.month dt =? 12), (Civil.day dt =? 24); reflexivity.
Qed.

(** X14.  With the session times of [MarketConfig], in any zone: a candle
    survives exactly when its local time of day, in milliseconds since
    midnight, lies from 09:30:00.000 to 16:00:00.000, both included,
    and on an early-close day is not after 13:00:00.000. *)
Theorem session_filter_in_milliseconds (tz : Civil.tzinfo) (candle : Candle) :
  let self := {| timezone := tz;
                 market_open := Civil.mk_time 9 30 0 0;
                 market_close := Civil.mk_time 16 0 0 0;
                 early_close := Civil.mk_time 13 0 0 0 |} in
  let timestamp_ms := get (c_datetime candle) 0 in
  accepted self candle = true
  <-> 34200000 <= local_ms_of_day tz timestamp_ms <= 57600000
      /\ (early_close_day (Civil.fromtimestamp_ms tz timestamp_ms) = true ->
          local_ms_of_day tz timestamp_ms <= 46800000).
Proof.
  intros self timestamp_ms.
  rewrite accepted_closed_form.
  cbn [timezone market_open market_close early_close self]. fold timestamp_ms.
  destruct (local_time_us tz timestamp_ms) as (Hus & Hm & Hs & Hu).
  set (t := Civil.time_of (Civil.fromtimestamp_ms tz timestamp_ms)) in *.
  clearbody t.
  unfold Civil.time_ltb, Civil.time_gtb.
  rewrite !(time_compare_us t)
    by (try assumption;
        cbn [Civil.minute Civil.second Civil.microsecond]; lia).
  rewrite Hus. unfold to_us.
  cbn [Civil.hour Civil.minute Civil.second Civil.microsecond].
  set (ms := local_ms_of_day tz timestamp_ms). clearbody ms. clear Hus.
  destruct (early_close_day _);
    repeat match goal with
           | |- context [?a ?= ?b] => destruct (Z.compare_spec a b)
           end;
    cbn;
    (split;
     [intros Hb;
      first [discriminate Hb
            | split; [lia | intros He; first [discriminate He | lia]]]
     |intros [Hr He];
      first [reflexivity | exfalso; try specialize (He eq_refl); lia]]).
Qed.

(** X15.  A candle without a [datetime] key is read as the epoch, 19:00 of
    the evening before in New York, and dropped. *)
Theorem candle_without_datetime_is_dropped (candle : Candle) :
  c_datetime candle = None -> _process_single_candle default candle = None.
Proof.
  intros H. unfold _process_single_candle. rewrite H. reflexivity.
Qed.

End CalendarFacts.

(** ** Cleaning and validation together *)

Module PipelineFacts.
Import Frame MarketDataProcessor FrameFacts DataQualityValidator ValidatorLog.

(** Two strictly ascending lists with the same elements are equal. *)
Lemma ascending_same_elements (l l' : list Z) :
  StronglySorted Z.lt l -> StronglySorted Z.lt l' ->
  (forall x, In x l <-> In x l') -> l = l'.
Proof.
  revert l'. induction l as [|a l IH]; intros l' Hs Hs' Hin.
  - destruct l' as [|b l']; [reflexivity|].
    destruct (proj2 (Hin b) (or_introl eq_refl)).
  - destruct l' as [|b l'].
    { destruct (proj1 (Hin a) (or_introl eq_refl)). }
    apply StronglySorted_inv in Hs, Hs'.
    destruct Hs as [Hl Ha], Hs' as [Hl' Hb].
    rewrite Forall_forall in Ha, Hb.
    assert (a = b).
    { destruct (proj1 (Hin a) (or_introl eq_refl)) as [E|Ha']; [now subst|].
      destruct (proj2 (Hin b) (or_introl eq_refl)) as [E|Hb']; [now subst|].
      specialize (Ha b Hb'). specialize (Hb a Ha'). lia. }
    subst b. f_equal. apply IH; [exact Hl | exact Hl'|].
    intros x. split; intros Hx.
    + destruct (proj1 (Hin x) (or_intror Hx)) as [E|H']; [|exact H'].
      specialize (Ha x Hx). lia.
    + destruct (proj2 (Hin x) (or_intror Hx)) as [E|H']; [|exact H'].
      specialize (Hb x Hx). lia.
Qed.

Lemma increasing_map_timestamp (df : list Row) :
  StronglySorted ts_lt df -> StronglySorted Z.lt (map timestamp df).
Proof.
  induction 1 as [|a l Hs IH Hall]; cbn; constructor; [exact IH|].
  apply Forall_forall. intros x Hx. apply in_map_iff in Hx.
  destruct Hx as [r [<- Hr]]. rewrite Forall_forall in Hall. now apply Hall.
Qed.

Section Sorts.
Variables sort_values sort_values' : list Row -> list Row.
Hypothesis sort_ok : sorts_by_timestamp sort_values.
Hypothesis sort_ok' : sorts_by_timestamp sort_values'.

(** The timestamps of the cleaned frame are those of the candles that
    survive the filter. *)
Lemma process_candles_timestamps (self : t) (candles : list Candle) (x : Z) :
  In x (map timestamp (process_candles sort_values self candles))
  <-> exists c r, In c candles /\ _process_single_candle self c = Some r
                  /\ timestamp r = x.
Proof.
  rewrite in_map_iff. split.
  - intros [r [<- Hr]].
    destruct (ProcessorFacts.process_candles_In _ sort_ok _ _ _ Hr) as [c [Hc Hs]].
    now exists c, r.
  - intros (c & r & Hc & Hs & <-).
    rewrite ProcessorFacts.process_candles_eq by exact sort_ok.
    assert (Hin : In r (sort_values (collect self candles))).
    { eapply Permutation_in; [apply (sort_perm _ sort_ok)|].
      apply ProcessorFacts.collect_In. now exists c. }
    destruct (drop_duplicates_from_covers [] _ _ Hin) as [[]|[r' [Hr' Ht]]].
    now exists r'.
Qed.

(** X16.  The timestamps of the cleaned frame do not depend on the order in
    which the candles arrive, nor on the sort that is used. *)
Theorem cleaned_timestamps_order_free (self : t) (candles candles' : list Candle) :
  Permutation candles candles' ->
  map timestamp (process_candles sort_values self candles)
  = map timestamp (process_candles sort_values' self candles').
Proof.
  intros Hp. apply ascending_same_elements.
  - apply increasing_map_timestamp.
    now apply ProcessorFacts.process_candles_increasing.
  - apply increasing_map_timestamp.
    now apply ProcessorFacts.process_candles_increasing.
  - intros x. split; intros Hx.
    + apply (proj1 (process_candles_timestamps self candles x)) in Hx.
      destruct Hx as (c & r & Hc & Hs & Ht).
      rewrite in_map_iff.
      assert (Hin : In r (sort_values' (collect self candles'))).
      { eapply Permutation_in; [apply (sort_perm _ sort_ok')|].
        apply ProcessorFacts.collect_In. exists c. split; [|exact Hs].
        eapply Permutation_in; [exact Hp | exact Hc]. }
      rewrite ProcessorFacts.process_candles_eq by exact sort_ok'.
      destruct (drop_duplicates_from_covers [] _ _ Hin) as [[]|[r' [Hr' Ht']]].
      exists r'. split; [congruence | exact Hr'].
    + rewrite in_map_iff in Hx. destruct Hx as [r [<- Hr]].
      destruct (ProcessorFacts.process_candles_In _ sort_ok' _ _ _ Hr) as [c [Hc Hs]].
      apply (proj2 (process_candles_timestamps self candles (timestamp r))).
      exists c, r. split; [|tauto].
      eapply Permutation_in; [apply Permutation_sym; exact Hp | exact Hc].
Qed.

(** X17.  A cleaned frame never trips the duplicate-timestamp check or the
    ordering check; it passes validation exactly when it is not empty,
    no two rows print the same datetime, and no price is negative. *)
Theorem cleaned_frame_validation (self : t) (candles : list Candle) :
  let out := process_candles sort_values self candles in
  fst (_check_duplicate_timestamps out) = true
  /\ fst (_check_timestamp_ordering out) = true
  /\ (fst (validate_dataframe (Some out)) = true
      <-> out <> [] /\ NoDup (map datetime out)
          /\ forall r, In r out -> no_negative_price r).
Proof.
  intros out.
  pose proof (increasing_map_timestamp
                out (ProcessorFacts.process_candles_increasing
                       _ sort_ok self candles)) as Hinc.
  assert (Hnd : NoDup (map timestamp out)).
  { clear - Hinc. induction Hinc as [|a l Hl IH Hall]; constructor; [|exact IH].
    intros Ha. rewrite Forall_forall in Hall. specialize (Hall a Ha). lia. }
  assert (Hso : Sorted Z.le (map timestamp out)).
  { clear - Hinc. apply StronglySorted_Sorted.
    induction Hinc as [|a l Hl IH Hall]; constructor; [exact IH|].
    eapply Forall_impl; [|exact Hall]. cbn beta. intros; lia. }
  assert (H1 : fst (_check_duplicate_timestamps out) = true)
    by now apply ValidatorFacts._check_duplicate_timestamps_passes.
  assert (H6 : fst (_check_timestamp_ordering out) = true)
    by now apply ValidatorFacts._check_timestamp_ordering_passes.
  split; [exact H1|]. split; [exact H6|].
  unfold validate_dataframe.
  destruct out as [|r rest] eqn:E; cbn [is_empty].
  - split; [discriminate | intros [H _]; congruence].
  - rewrite <- E in *.
    pose proof (ValidatorFacts.run_passes validations out) as Hrun.
    cbn [forallb validations fst snd] in Hrun.
    rewrite H1, H6, (ValidatorFacts._check_null_values_passes out),
      (ValidatorFacts._check_volume_values_passes out) in Hrun.
    cbn [andb] in Hrun. rewrite !andb_true_r in Hrun.
    destruct (run validations out) as [ok l]. cbn [fst] in Hrun. subst ok.
    transitivity (fst (_check_duplicate_datetime out)
                  && fst (_check_negative_prices out) = true).
    { destruct (_ && _); cbn; split; congruence. }
    rewrite andb_true_iff, ValidatorFacts._check_duplicate_datetime_passes,
      ValidatorFacts._check_negative_prices_passes.
    split; [intros [? ?]; repeat split; [congruence | assumption | assumption]
           | tauto].
Qed.

End Sorts.

(** Two candles one millisecond apart are both kept and print the same
    datetime: the cleaned frame fails validation. *)
Example cleaned_frame_may_fail_validation :
  let out := process_candles insertion_sort default
                             [mk_candle (Some 1748872800000) None None None None None;
                              mk_candle (Some 1748872800001) None None None None None] in
  map timestamp out = [1748872800000; 1748872800001]
  /\ fst (validate_dataframe (Some out)) = false.
Proof. vm_compute. split; reflexivity. Qed.

(** X18.  Validation returns [False] exactly when it has logged an error, and
    when it returns [True] each of the six checks has run. *)
Theorem validation_fails_iff_error_logged (df : option (list Row)) :
  fst (validate_dataframe df) = negb (has_error (snd (validate_dataframe df)))
  /\ (fst (validate_dataframe df) = true ->
      forall c, evaluated c (snd (validate_dataframe df)) = true).
Proof.
  destruct df as [[|r rest]|]; [split; [reflexivity | discriminate]|
                                |split; [reflexivity | discriminate]].
  set (rows := r :: rest).
  unfold validate_dataframe.
  change (is_empty rows) with false. cbv iota.
  unfold validations, run.
  unfold _check_duplicate_timestamps, _check_duplicate_datetime,
    _check_null_values, _check_negative_prices, _check_volume_values,
    _check_timestamp_ordering.
  destruct (is_empty (duplicated Z.eqb timestamp rows));
    destruct (is_empty (duplicated String.eqb datetime rows));
    destruct (0 <? list_sum (map snd (null_counts rows)))%nat;
    destruct (is_empty (filter _ rows));
    destruct (is_empty (filter (fun r => le0 (volume r)) rows));
    destruct (is_monotonic_increasing (map timestamp rows));
    (split; [reflexivity | first [discriminate | intros _ c; destruct c; reflexivity]]).
Qed.

End PipelineFacts.

(** ** What aggregation keeps *)

Module AggregationFacts.
Import MarketDataAggregator AggregatorFacts BarShape.

Lemma sum_list_app (l l' : list Z) :
  sum_list (l ++ l') = sum_list l + sum_list l'.
Proof. unfold sum_list. induction l as [|a l IH]; cbn; [reflexivity | lia]. Qed.









(** Two lists of rows with strictly ascending labels and the same rows
    are equal. *)
Lemma ascending_labels_same_rows (l l' : list Aggregated) :
  StronglySorted (fun a b => a_datetime a < a_datetime b) l ->
  StronglySorted (fun a b => a_datetime a < a_datetime b) l' ->
  (forall x, In x l <-> In x l') -> l = l'.
Proof.
  revert l'. induction l as [|a l IH]; intros l' Hs Hs' Hin.
  - destruct l' as [|b l']; [reflexivity|].
    destruct (proj2 (Hin b) (or_introl eq_refl)).
  - destruct l' as [|b l'].
    { destruct (proj1 (Hin a) (or_introl eq_refl)). }
    apply StronglySorted_inv in Hs, Hs'.
    destruct Hs as [Hl Ha], Hs' as [Hl' Hb].
    rewrite Forall_forall in Ha, Hb.
    assert (a = b).
    { destruct (proj1 (Hin a) (or_introl eq_refl)) as [E|Ha']; [now subst|].
      destruct (proj2 (Hin b) (or_introl eq_refl)) as [E|Hb']; [now subst|].
      specialize (Ha b Hb'). specialize (Hb a Ha'). lia. }
    subst b. f_equal. apply IH; [exact Hl | exact Hl'|].
    intros x. split; intros Hx.
    + destruct (proj1 (Hin x) (or_intror Hx)) as [E|H']; [|exact H'].
      subst x. specialize (Ha a Hx). lia.
    + destruct (proj2 (Hin x) (or_intror Hx)) as [E|H']; [|exact H'].
      subst x. specialize (Hb a Hx). lia.
Qed.

Lemma strict_is_sorted (df : list Bar) :
  StronglySorted (fun a b => index a < index b) df -> StronglySorted idx_le df.
Proof.
  induction 1 as [|a l Hl IH Hall]; constructor; [exact IH|].
  eapply Forall_impl; [|exact Hall]. unfold idx_le. cbn beta. intros; lia.
Qed.

(** In a series with strictly ascending indices, the rows with the
    index of a row are that row alone. *)
Lemma bucket_of_own_index (df : list Bar) (r : Bar) :
  StronglySorted (fun a b => index a < index b) df -> In r df ->
  filter (fun r' => index r' =? index r) df = [r].
Proof.
  induction 1 as [|a l Hl IH Hall]; intros Hr; [destruct Hr|].
  rewrite Forall_forall in Hall. cbn [filter].
  destruct Hr as [->|Hr].
  - rewrite Z.eqb_refl. f_equal.
    apply ValidatorFacts.filter_nil. intros x Hx.
    specialize (Hall x Hx). apply Z.eqb_neq. lia.
  - specialize (Hall r Hr).
    destruct (Z.eqb_spec (index a) (index r)); [lia | now apply IH].
Qed.

(** X21.  Aggregating a clean series at its own granularity gives the series
    back: when the bars are in strictly ascending time order, within
    market hours and aligned to the bucket length, each bar is its own
    bucket. *)
Theorem aggregate_same_granularity (freq : Z) (df : list Bar) :
  0 < freq -> (freq | 86400) ->
  StronglySorted (fun a b => index a < index b) df ->
  (forall r, In r df -> in_market_hours r = true /\ (freq | index r)) ->
  aggregate freq df = map as_aggregated df.
Proof.
  intros Hf Hd Hs Hall.
  assert (Hkept : kept df = df).
  { unfold kept.
    assert (E : filter in_market_hours df = df).
    { clear - Hall. induction df as [|r df IH]; [reflexivity|].
      cbn [filter]. rewrite (proj1 (Hall r (or_introl eq_refl))).
      f_equal. apply IH. intros r' Hr'. apply Hall. now right. }
    rewrite E. apply sort_index_fixed, strict_is_sorted, Hs. }
  assert (Hstart : forall r, In r df -> bucket_start freq r = index r).
  { intros r Hr. destruct (proj2 (Hall r Hr)) as [m E]. unfold bucket_start.
    rewrite E, Z.div_mul by lia. reflexivity. }
  assert (Hbucket : forall r, In r df -> bucket freq (index r) df = [r]).
  { intros r Hr. rewrite <- (bucket_of_own_index df r Hs Hr).
    unfold bucket. apply filter_ext_in. intros r' Hr'. now rewrite (Hstart r' Hr'). }
  apply ascending_labels_same_rows.
  - now apply aggregate_increasing.
  - clear - Hs. induction Hs as [|a l Hl IH Hall]; cbn [map]; constructor; [exact IH|].
    apply Forall_forall. intros x Hx. apply in_map_iff in Hx.
    destruct Hx as [r [<- Hr]]. rewrite Forall_forall in Hall. now apply Hall.
  - intros o. rewrite (aggregate_In freq Hf Hd), Hkept, in_map_iff. split.
    + intros (edge & Hne & ->).
      destruct (bucket freq edge df) as [|r g] eqn:E; [congruence|].
      assert (Hr : In r (bucket freq edge df)) by (rewrite E; now left).
      apply bucket_In in Hr. destruct Hr as [Hr <-].
      rewrite (Hstart r Hr) in *. rewrite (Hbucket r Hr) in E.
      injection E as <-. exists r. split; [reflexivity | exact Hr].
    + intros (r & <- & Hr). exists (index r).
      rewrite (Hbucket r Hr). split; [discriminate | reflexivity].
Qed.

End AggregationFacts.

(** ** The properties above at sample inputs *)

Module Witnesses.
Import Frame SchwabMarketDataClient FetchTrace.


Lemma clamp_never_applies_witness :
  Samples.jan_1_2025
  + timedelta (period_at Samples.jan_11_2025 Samples.jan_1_2025 - 1)
  <= Samples.jan_11_2025.
Proof.
  apply (FetchTraceFacts.clamp_never_applies
           Samples.jan_1_2025 Samples.jan_11_2025).
  vm_compute. discriminate.
Defined.

Lemma invalid_inputs_touch_nothing_witness :
  get_price_history nat Samples.flaky_get Samples.token_provider insertion_sort
                    default_api MarketDataProcessor.default
                    {| access_token := None |} "SPY"
                    Samples.jan_1_2025 Samples.jan_11_2025 7 O
  = (None, [], O).
Proof.
  apply (HistoryFacts.invalid_inputs_touch_nothing
           nat Samples.flaky_get Samples.token_provider insertion_sort
           default_api MarketDataProcessor.default).
  left. cbn. intuition discriminate.
Defined.

Lemma no_token_no_request_witness :
  fst (get_price_history nat Samples.flaky_get MoreSamples.no_token_provider
                         insertion_sort default_api MarketDataProcessor.default
                         {| access_token := None |} "SPY"
                         Samples.jan_1_2025 Samples.jan_11_2025 5 O)
  = (None, []).
Proof.
  apply (HistoryFacts.no_token_no_request
           nat Samples.flaky_get MoreSamples.no_token_provider insertion_sort
           default_api MarketDataProcessor.default);
    reflexivity.
Defined.

Lemma price_history_is_cleaned_fetch_witness :
  forallb answered
          (map snd
               (snd (fst (get_price_history
                            nat MoreSamples.steady_get Samples.token_provider
                            insertion_sort default_api MarketDataProcessor.default
                            {| access_token := None |} "SPY"
                            Samples.jan_1_2025 Samples.jan_11_2025 5 O))))
  = true.
Proof.
  pose proof (fun rows H =>
                proj1 (proj2 (proj2
                  (HistoryFacts.price_history_is_cleaned_fetch
                     nat MoreSamples.steady_get Samples.token_provider
                     insertion_sort default_api MarketDataProcessor.default
                     {| access_token := None |} "SPY"
                     Samples.jan_1_2025 Samples.jan_11_2025 5 O rows H)))) as W.
  eapply W. vm_compute. reflexivity.
Defined.

Lemma empty_fetch_returns_none_witness :
  fst (fst (get_price_history
              nat MoreSamples.empty_get Samples.token_provider
              insertion_sort default_api MarketDataProcessor.default
              {| access_token := None |} "SPY"
              Samples.jan_1_2025 Samples.jan_11_2025 5 O))
  = None.
Proof.
  apply (HistoryFacts.empty_fetch_returns_none
           nat MoreSamples.empty_get Samples.token_provider
           insertion_sort default_api MarketDataProcessor.default).
  vm_compute. reflexivity.
Defined.

Lemma candle_without_datetime_is_dropped_witness :
  MarketDataProcessor._process_single_candle
    MarketDataProcessor.default MoreSamples.candle_undated = None.
Proof.
  apply CalendarFacts.candle_without_datetime_is_dropped. reflexivity.
Defined.

Lemma cleaned_timestamps_order_free_witness :
  map timestamp
      (MarketDataProcessor.process_candles
         insertion_sort MarketDataProcessor.default Samples.raw_candles)
  = map timestamp
        (MarketDataProcessor.process_candles
           insertion_sort MarketDataProcessor.default (rev Samples.raw_candles)).
Proof.
  apply (PipelineFacts.cleaned_timestamps_order_free
           insertion_sort insertion_sort
           FrameFacts.insertion_sort_sorts FrameFacts.insertion_sort_sorts).
  apply Permutation_rev.
Defined.

Lemma cleaned_frame_validation_witness :
  fst (DataQualityValidator._check_duplicate_timestamps
         (MarketDataProcessor.process_candles
            insertion_sort MarketDataProcessor.default Samples.raw_candles)) = true
  /\ fst (DataQualityValidator._check_timestamp_ordering
            (MarketDataProcessor.process_candles
               insertion_sort MarketDataProcessor.default Samples.raw_candles)) = true.
Proof.
  pose proof (PipelineFacts.cleaned_frame_validation
                insertion_sort FrameFacts.insertion_sort_sorts
                MarketDataProcessor.default Samples.raw_candles) as H.
  cbv zeta in H. destruct H as (H1 & H2 & _). split; assumption.
Defined.



Lemma aggregate_same_granularity_witness :
  MarketDataAggregator.aggregate 60 Samples.minute_bars
  = map BarShape.as_aggregated Samples.minute_bars.
Proof.
  apply AggregationFacts.aggregate_same_granularity.
  - lia.
  - now exists 1440.
  - unfold Samples.minute_bars.
    repeat (constructor; [|repeat constructor; cbn; lia]). constructor.
  - intros r [<-|[<-|[<-|[<-|[]]]]]; (split; [reflexivity|]);
      cbn [MarketDataAggregator.index].
    + now exists 29147610.
    + now exists 29147611.
    + now exists 29147612.
    + now exists 29147614.
Defined.

End Witnesses.
